(** * spiritBE: the credit ledger, the payment flow and the image-transform flow

    A shallow embedding of the Express server ([index.js]) and of its
    Firestore repository ([firebase.js]).  Handlers are programs in a small
    state-and-exception monad over a [world] that holds the three Firestore
    collections and the trace of every call that leaves the process.

    Modelling conventions.
    - A JavaScript number is a binary64 value.  The finite integers among
      them are [JNum], with the integer itself; every other number but NaN
      is a [JFloat], with the binary64 value of Rocq's kernel.  Sums and
      products of integers are exact up to 2^53 in magnitude and are
      rounded by the kernel's binary64 arithmetic beyond.  Negative zero
      is not told from zero: the server never divides.
    - The values of a JSON body are the primitive values and [JObject],
      which stands for an object or an array by the string it converts to.
    - A JavaScript string is the sequence of its code units, each below
      256, so that [String.length] is its [length].
    - Third-party code (Node's [crypto] and [path], [sharp], the OpenAI and
      Razorpay SDKs, ECMAScript's StringToNumber and Number::toString) is
      not part of the repository: it enters as [Variable]s and as the two
      classes [NumberPrinter] and [Firestore].
    - Firestore is an in-memory document store.  [doc] refuses an
      identifier that is not a string, and a string is taken to name a
      document; a write refuses a field whose value is [undefined], and
      [addDoc] may reject for reasons of its own; reads and updates of a
      user document succeed.  One request is handled at a time, and the
      clock stands still while it is. *)

From Stdlib Require Import ZArith String Ascii Strings.Byte List Lia.
From Stdlib Require Import PrimFloat SpecFloat FloatOps.
From Stdlib Require Import Sorted Permutation.
From stdpp Require Import gmap strings list pretty.

Import ListNotations.
Open Scope string_scope.
Open Scope Z_scope.

Set Warnings "-inexact-float".

(* ===================================================================== *)
(** * JavaScript values and the operators the server applies to them     *)
(* ===================================================================== *)

(** The values of a JSON body and of a Firestore field, and the two
    built-in objects that a property read on an object literal can reach
    through its prototype. *)
Inductive jsval :=
| JUndefined
| JNull
| JBool (b : bool)
| JNum (n : Z)                (* a number that is a finite integer *)
| JFloat (x : float)          (* any other number but NaN: a fraction, an infinity *)
| JNaN
| JStr (s : string)
| JObject (shown : string)    (* a plain object or an array, by the string it converts to *)
| JNativeFn (name : string)   (* a built-in function object *)
| JObjectProto.               (* [Object.prototype] itself *)

(** A field of a request body: absent fields read as [undefined]. *)
Definition of_field (o : option string) : jsval :=
  match o with Some s => JStr s | None => JUndefined end.

(** ** Numbers *)

(** The binary64 value nearest to an integer (ties to even). *)
Definition Z2float (n : Z) : float := SF2Prim (binary_normalize prec emax n 0 false).

(** The integer a binary64 value is, when it is finite and has no
    fractional part. *)
Definition float_integer (x : float) : option Z :=
  match Prim2SF x with
  | S754_zero _ => Some 0
  | S754_finite s m e =>
      let v := if s then Z.neg m else Z.pos m in
      if 0 <=? e then Some (v * 2 ^ e)
      else if Z.pos m mod 2 ^ (- e) =? 0 then Some (v / 2 ^ (- e))
      else None
  | _ => None
  end.

(** A binary64 value as a number of the model. *)
Definition number_of_float (x : float) : jsval :=
  if is_nan x then JNaN
  else match float_integer x with Some n => JNum n | None => JFloat x end.

(** A number of the model as a binary64 value. *)
Definition float_of_number (v : jsval) : float :=
  match v with
  | JNum n => Z2float n
  | JFloat x => x
  | _ => nan
  end.

(** The number an integer result is rounded to: itself as long as its
    magnitude does not exceed 2^53, every such integer being a binary64
    value. *)
Definition round_to_double (n : Z) : jsval :=
  if Z.abs n <=? 2 ^ 53 then JNum n else number_of_float (Z2float n).

(** [x + y] on numbers.  The sum of two integers is their exact sum,
    rounded; adding zero changes nothing. *)
Definition add_numbers (a b : jsval) : jsval :=
  match a, b with
  | JNum x, JNum y =>
      if x =? 0 then JNum y else if y =? 0 then JNum x else round_to_double (x + y)
  | JNaN, _ | _, JNaN => JNaN
  | _, _ => number_of_float (float_of_number a + float_of_number b)
  end.

(** [x * y] on numbers. *)
Definition mul_numbers (a b : jsval) : jsval :=
  match a, b with
  | JNum x, JNum y => round_to_double (x * y)
  | JNaN, _ | _, JNaN => JNaN
  | _, _ => number_of_float (float_of_number a * float_of_number b)
  end.

(** [x < y] on numbers: a comparison with NaN is false. *)
Definition lt_numbers (a b : jsval) : bool :=
  match a, b with
  | JNum x, JNum y => x <? y
  | JNaN, _ | _, JNaN => false
  | _, _ => (float_of_number a <? float_of_number b)%float
  end.

(** ECMAScript's Number::toString, for the numbers whose string form is
    not the decimal numeral of an integer: fractions, infinities, and
    integers from 10^21 on, which print with an exponent. *)
Class NumberPrinter := number_toString : float -> string.

(** ** Conversions and operators *)

(** [ToBoolean]: what [!v], [v || w], [v && w] and [if (v)] look at. *)
Definition truthy (v : jsval) : bool :=
  match v with
  | JUndefined | JNull | JNaN => false
  | JBool b => b
  | JNum n => negb (n =? 0)
  | JFloat x => negb (is_zero x || is_nan x)
  | JStr s => negb (String.eqb s "")
  | JObject _ | JNativeFn _ | JObjectProto => true
  end.

(** [a || b] *)
Definition js_or (a b : jsval) : jsval := if truthy a then a else b.

(** [ToString], as a template literal applies it.  A built-in function
    prints the way V8 prints it; [Object.prototype] prints through
    [Object.prototype.toString]. *)
Definition js_toString {printer : NumberPrinter} (v : jsval) : string :=
  match v with
  | JUndefined => "undefined"
  | JNull => "null"
  | JBool true => "true"
  | JBool false => "false"
  | JNum n => if Z.abs n <? 10 ^ 21 then pretty n else number_toString (Z2float n)
  | JFloat x => number_toString x
  | JNaN => "NaN"
  | JStr s => s
  | JObject shown => shown
  | JNativeFn name => "function " +:+ name +:+ "() { [native code] }"
  | JObjectProto => "[object Object]"
  end.

(** [ToPrimitive] without a hint: the identity on primitives, the string
    form on objects. *)
Definition js_toPrimitive {printer : NumberPrinter} (v : jsval) : jsval :=
  match v with
  | JObject _ | JNativeFn _ | JObjectProto => JStr (js_toString v)
  | _ => v
  end.

(** [s === v] for a string [s]: [v] is a string, and the same one. *)
Definition strict_equals_string (s : string) (v : jsval) : bool :=
  match v with JStr t => String.eqb s t | _ => false end.

Section Arith.

(** ECMAScript's StringToNumber: the number a string reads as, NaN when
    it reads as none. *)
Variable StringToNumber : string -> float.

Context {printer : NumberPrinter}.

(** [ToNumber]; the result is [JNum], [JFloat] or [JNaN]. *)
Definition js_toNumber (v : jsval) : jsval :=
  match v with
  | JUndefined => JNaN
  | JNull => JNum 0
  | JBool true => JNum 1
  | JBool false => JNum 0
  | JNum n => JNum n
  | JFloat x => JFloat x
  | JNaN => JNaN
  | JStr s => number_of_float (StringToNumber s)
  | JObject shown => number_of_float (StringToNumber shown)
  | JNativeFn _ | JObjectProto => JNaN
  end.

(** [a * b] *)
Definition js_mul (a b : jsval) : jsval :=
  mul_numbers (js_toNumber a) (js_toNumber b).

(** [a + b]: concatenation as soon as one side is a string. *)
Definition js_add (a b : jsval) : jsval :=
  match js_toPrimitive a, js_toPrimitive b with
  | JStr s, pb => JStr (s +:+ js_toString pb)
  | pa, JStr t => JStr (js_toString pa +:+ t)
  | pa, pb => add_numbers (js_toNumber pa) (js_toNumber pb)
  end.

(** [a < b]: by code units when both sides are strings, numeric
    otherwise. *)
Definition js_lt (a b : jsval) : bool :=
  match js_toPrimitive a, js_toPrimitive b with
  | JStr s, JStr t => String.ltb s t
  | pa, pb => lt_numbers (js_toNumber pa) (js_toNumber pb)
  end.

End Arith.

(** White space that [String.prototype.trim] strips, among the code units
    below 256: tab, line feed, vertical tab, form feed, carriage return,
    space and no-break space. *)
Definition is_space (c : ascii) : bool :=
  match nat_of_ascii c with
  | 9%nat | 10%nat | 11%nat | 12%nat | 13%nat | 32%nat | 160%nat => true
  | _ => false
  end.

Fixpoint trimStart (s : string) : string :=
  match s with
  | String c s' => if is_space c then trimStart s' else s
  | EmptyString => EmptyString
  end.

Fixpoint rev_onto (s acc : string) : string :=
  match s with
  | String c s' => rev_onto s' (String c acc)
  | EmptyString => acc
  end.

Definition string_rev (s : string) : string := rev_onto s "".

(** [s.trim()] *)
Definition js_trim (s : string) : string :=
  string_rev (trimStart (string_rev (trimStart s))).

(** [s.startsWith(p)] *)
Definition startsWith (s p : string) : bool := String.prefix p s.

(** [s.endsWith(suffix)]: what a regular expression [suffix$] tests when
    the suffix is a literal. *)
Definition endsWith (s suffix : string) : bool :=
  String.prefix (string_rev suffix) (string_rev s).

(** [s.includes(sub)] *)
Fixpoint includes (s sub : string) : bool :=
  String.prefix sub s ||
  match s with
  | String _ s' => includes s' sub
  | EmptyString => false
  end.

(** A thrown [Error]: its [message] and, for SDK errors, its [status]. *)
Record jserror := { message : string; err_status : option Z }.

(** An HTTP response: the status code and the fields of the JSON body (a
    field whose value is [undefined] is not serialised, hence not listed). *)
Record response := { status : Z; body : list (string * jsval) }.

Definition buffer := list byte.

(* ===================================================================== *)
(** * The world: Firestore collections and the trace of outgoing calls   *)
(* ===================================================================== *)

(** A document of the [users] collection.  [u_credits] is whatever the
    document stores under [credits] ([JUndefined] when the field is
    absent); the fields the server never reads are kept in [u_other]. *)
Record userDoc := {
  u_credits : jsval;
  u_createdAt : option Z;
  u_updatedAt : option Z;
  u_other : gmap string jsval
}.

(** The argument of [createOrUpdateUser] without its [id]: [credits] and
    [createdAt], when the object has them, and its other fields by name.
    An [updatedAt] is one of the other fields.  The names are taken to
    be plain words, which Firestore reads the same way as the name of a
    field and as the path to it. *)
Record userFields := {
  f_credits : option jsval;
  f_createdAt : option Z;
  f_other : gmap string jsval
}.

(** The argument of [saveGeneratedImage]. *)
Record imageData := {
  img_userId : string;
  img_prompt : string;
  img_enhancedPrompt : string;
  img_imageDescription : string;
  img_originalImageUrl : string;
  img_style : string;
  img_detailLevel : jsval;
  img_imageUrl : string
}.

Record imageDoc := {
  img_id : string;
  img_data : imageData;
  img_createdAt : Z
}.

(** The argument of [saveTransaction]: a purchase carries the order, the
    payment and the amount; an image transformation the image id and the
    prompt.  [None] is a key the object does not have; a key whose value
    is [undefined] is [Some JUndefined]. *)
Record transactionData := {
  tx_userId : string;
  tx_orderId : option jsval;
  tx_paymentId : option jsval;
  tx_amount : option jsval;
  tx_imageId : option string;
  tx_credits : jsval;
  tx_type : string;
  tx_prompt : option string
}.

Record transactionDoc := {
  tx_id : string;
  tx_data : transactionData;
  tx_createdAt : Z
}.

(** The options object handed to [razorpay.orders.create]. *)
Record orderOptions := {
  amount : jsval;
  currency : string;
  receipt : string;
  notes_userId : jsval;
  notes_credits : jsval
}.

(** What leaves the process, in the order it leaves: the calls to
    Firestore, Razorpay and OpenAI, the write of the temporary file, the
    arming of its deletion, and, of all the lines the server logs, the one
    about the length of the prompt. *)
Inductive event :=
| FirestoreGet (collection id : string)
| FirestoreSet (collection id : string)
| FirestoreUpdate (collection id : string)
| FirestoreAdd (collection id : string)
| RazorpayOrdersCreate (options : orderOptions)
| DiskWrite (path : string) (data : buffer)
| OpenAIResponsesCreate (image_url : string)
| OpenAIImagesGenerate (prompt : string)
| CleanupScheduled (path : string)
| ConsoleLog (line : string).

Record world := {
  users : gmap string userDoc;
  images : list imageDoc;
  transactions : list transactionDoc;
  trace : list event;
  clock : Z;          (* what [Date.now()] and [new Date()] read *)
  ids_drawn : nat     (* how many document ids Firestore has generated *)
}.

Definition with_users (f : gmap string userDoc -> gmap string userDoc) (w : world) : world :=
  {| users := f (users w); images := images w; transactions := transactions w;
     trace := trace w; clock := clock w; ids_drawn := ids_drawn w |}.

Definition with_trace (e : event) (w : world) : world :=
  {| users := users w; images := images w; transactions := transactions w;
     trace := trace w ++ [e]; clock := clock w; ids_drawn := ids_drawn w |}.

Definition with_image (d : imageDoc) (w : world) : world :=
  {| users := users w; images := images w ++ [d]; transactions := transactions w;
     trace := trace w; clock := clock w; ids_drawn := S (ids_drawn w) |}.

Definition with_transaction (d : transactionDoc) (w : world) : world :=
  {| users := users w; images := images w; transactions := transactions w ++ [d];
     trace := trace w; clock := clock w; ids_drawn := S (ids_drawn w) |}.

(** What the Firestore SDK decides and the repository does not:
    - the error [doc(collection, id)] throws for an [id] that is not a
      string;
    - the error a write throws, before anything is sent, for a field
      whose value is [undefined], by the collection and the field;
    - whether [addDoc] rejects the append of a record to [images] or to
      [transactions], and with what. *)
Class Firestore := {
  doc_rejects : jsval -> jserror;
  undefined_rejects : string -> string -> jserror;
  images_addDoc_rejects : imageData -> world -> option jserror;
  transactions_addDoc_rejects : transactionData -> world -> option jserror
}.

(* ===================================================================== *)
(** * The handler monad                                                  *)
(* ===================================================================== *)

(** A step of an [async] handler either yields a value, or has sent the
    response and returned ([return res.status(..).json(..)]), or has
    thrown. *)
Inductive result (A : Type) :=
| Val (a : A)
| Sent (r : response)
| Thrown (e : jserror).
Arguments Val {A} a.
Arguments Sent {A} r.
Arguments Thrown {A} e.

Definition M (A : Type) : Type := world -> result A * world.

Definition ret {A} (a : A) : M A := fun w => (Val a, w).

Definition bind {A B} (m : M A) (k : A -> M B) : M B :=
  fun w =>
    match m w with
    | (Val a, w') => k a w'
    | (Sent r, w') => (Sent r, w')
    | (Thrown e, w') => (Thrown e, w')
    end.

Notation "'let!' x ':=' m 'in' k" := (bind m (fun x => k))
  (at level 10, x name, m at level 100, k at level 200).
Notation "m ';;;' k" := (bind m (fun _ => k))
  (at level 100, k at level 200, right associativity).

Definition emit (e : event) : M unit := fun w => (Val tt, with_trace e w).
Definition reply {A} (code : Z) (fields : list (string * jsval)) : M A :=
  fun w => (Sent {| status := code; body := fields |}, w).
Definition throw {A} (msg : string) : M A :=
  fun w => (Thrown {| message := msg; err_status := None |}, w).
Definition rethrow {A} (e : jserror) : M A := fun w => (Thrown e, w).
Definition now : M Z := fun w => (Val (clock w), w).

(** [try { m } catch (e) { h e }] *)
Definition try_catch {A} (m : M A) (h : jserror -> M A) : M A :=
  fun w =>
    match m w with
    | (Thrown e, w') => h e w'
    | other => other
    end.

(** How a request ends: with a response, or with the rejection of the
    promise of the [async] handler (Express 4 sends nothing then), or
    with the handler returning without having answered. *)
Inductive outcome :=
| Responded (r : response)
| Unhandled (e : jserror)
| Pending.

Definition run (m : M unit) (w : world) : outcome * world :=
  match m w with
  | (Sent r, w') => (Responded r, w')
  | (Thrown e, w') => (Unhandled e, w')
  | (Val _, w') => (Pending, w')
  end.

(** ** Query results, newest first *)

(** [orderBy('createdAt', 'desc')].  Modelled from Firestore's documented
    query semantics, Firestore itself being a dependency: the documents
    come by descending creation time, and documents of the same time by
    descending document id. *)
Section NewestFirst.

Context {A : Type} (createdAt : A -> Z) (docId : A -> string).

Definition comes_before (a b : A) : bool :=
  (createdAt b <? createdAt a)
  || ((createdAt a =? createdAt b) && String.leb (docId b) (docId a)).

Fixpoint insert_newest (x : A) (l : list A) : list A :=
  match l with
  | [] => [x]
  | y :: l' => if comes_before x y then x :: y :: l' else y :: insert_newest x l'
  end.

Definition newest_first (l : list A) : list A := fold_right insert_newest [] l.

End NewestFirst.

(* ===================================================================== *)
(** * firebase.js: the user and ledger store                             *)
(* ===================================================================== *)

Section Firebase.

Variable StringToNumber : string -> float.

(** The id generator of Firestore's [addDoc], by how many ids it has
    handed out. *)
Variable autoId : nat -> string.

Context {printer : NumberPrinter} {store : Firestore}.

(** [doc(usersCollection, id)]: the reference is the id, when the id is
    a string. *)
Definition doc_users (id : jsval) : M string :=
  match id with
  | JStr s => ret s
  | _ => rethrow (doc_rejects id)
  end.

Definition getDoc_user (id : string) : M (option userDoc) :=
  fun w => (Val (users w !! id), with_trace (FirestoreGet "users" id) w).

Definition setDoc_user (id : string) (d : userDoc) : M unit :=
  fun w => (Val tt, with_trace (FirestoreSet "users" id) (with_users (insert id d) w)).

Definition updateDoc_user (id : string) (f : userDoc -> userDoc) : M unit :=
  fun w => (Val tt, with_trace (FirestoreUpdate "users" id) (with_users (alter f id) w)).

(** [getUserById]: the document, or [null]. *)
Definition getUserById (userId : string) : M (option userDoc) :=
  try_catch (getDoc_user userId) rethrow.

(** A field of the argument of [createOrUpdateUser] that reaches the
    write with the value [undefined]. *)
Definition undefined_in_user (fields : userFields) : option string :=
  match f_credits fields with
  | Some JUndefined => Some "credits"
  | _ =>
      match List.filter (fun kv => match snd kv with JUndefined => true | _ => false end)
              (map_to_list (delete "updatedAt" (f_other fields))) with
      | kv :: _ => Some (fst kv)
      | [] => None
      end
  end.

(** [{...doc, ...fields}] on a user document; the [updatedAt] of the
    fields is left out, the caller overwrites it. *)
Definition merge_fields (fields : userFields) (d : userDoc) : userDoc :=
  {| u_credits := match f_credits fields with Some c => c | None => u_credits d end;
     u_createdAt := match f_createdAt fields with Some t => Some t | None => u_createdAt d end;
     u_updatedAt := u_updatedAt d;
     u_other := delete "updatedAt" (f_other fields) ∪ u_other d |}.

Definition touch (t : Z) (d : userDoc) : userDoc :=
  {| u_credits := u_credits d; u_createdAt := u_createdAt d;
     u_updatedAt := Some t; u_other := u_other d |}.

Definition createOrUpdateUser (id : string) (fields : userFields) : M userFields :=
  try_catch
    (let! snap := getDoc_user id in
     let! t := now in
     match undefined_in_user fields with
     | Some field => rethrow (undefined_rejects "users" field)
     | None =>
         match snap with
         | Some _ =>
             (* updateDoc(ref, {...userDataWithoutId, updatedAt: new Date()}) *)
             updateDoc_user id (fun d => touch t (merge_fields fields d))
         | None =>
             (* setDoc(ref, {...userDataWithoutId, createdAt: new Date(), updatedAt: new Date()}) *)
             setDoc_user id
               {| u_credits := match f_credits fields with Some c => c | None => JUndefined end;
                  u_createdAt := Some t;
                  u_updatedAt := Some t;
                  u_other := delete "updatedAt" (f_other fields) |}
         end
     end;;;
     ret fields)
    rethrow.

Definition set_credits (c : jsval) (t : Z) (d : userDoc) : userDoc :=
  {| u_credits := c; u_createdAt := u_createdAt d;
     u_updatedAt := Some t; u_other := u_other d |}.

Definition updateUserCredits (userId : string) (credits : jsval) : M jsval :=
  try_catch
    (let! snap := getDoc_user userId in
     match snap with
     | None => throw ("User with ID " +:+ userId +:+ " not found")
     | Some userData =>
         let updatedCredits :=
           js_add StringToNumber (js_or (u_credits userData) (JNum 0)) credits in
         let! t := now in
         updateDoc_user userId (set_credits updatedCredits t);;;
         ret updatedCredits
     end)
    rethrow.

(** The first field of an image record whose value is [undefined]; the
    other fields are strings. *)
Definition undefined_in_image (data : imageData) : option string :=
  match img_detailLevel data with
  | JUndefined => Some "detailLevel"
  | _ => None
  end.

(** [addDoc(imagesCollection, {...imageData, createdAt: new Date()})]:
    refused before it is sent when a field is [undefined]; rejected or
    stored otherwise. *)
Definition addDoc_image (data : imageData) : M imageDoc :=
  fun w =>
    match undefined_in_image data with
    | Some field => (Thrown (undefined_rejects "images" field), w)
    | None =>
        let d := {| img_id := autoId (ids_drawn w); img_data := data;
                    img_createdAt := clock w |} in
        match images_addDoc_rejects data w with
        | Some e => (Thrown e, with_trace (FirestoreAdd "images" (img_id d)) w)
        | None => (Val d, with_trace (FirestoreAdd "images" (img_id d)) (with_image d w))
        end
    end.

Definition saveGeneratedImage (data : imageData) : M imageDoc :=
  try_catch (addDoc_image data) rethrow.

(** The first field of a transaction record, in the order of its keys,
    whose value is [undefined]. *)
Definition undefined_in_transaction (data : transactionData) : option string :=
  match tx_orderId data, tx_paymentId data, tx_amount data, tx_credits data with
  | Some JUndefined, _, _, _ => Some "orderId"
  | _, Some JUndefined, _, _ => Some "paymentId"
  | _, _, Some JUndefined, _ => Some "amount"
  | _, _, _, JUndefined => Some "credits"
  | _, _, _, _ => None
  end.

(** [addDoc(transactionsCollection, {...transactionData, createdAt: new Date()})] *)
Definition addDoc_transaction (data : transactionData) : M transactionDoc :=
  fun w =>
    match undefined_in_transaction data with
    | Some field => (Thrown (undefined_rejects "transactions" field), w)
    | None =>
        let d := {| tx_id := autoId (ids_drawn w); tx_data := data;
                    tx_createdAt := clock w |} in
        match transactions_addDoc_rejects data w with
        | Some e => (Thrown e, with_trace (FirestoreAdd "transactions" (tx_id d)) w)
        | None =>
            (Val d, with_trace (FirestoreAdd "transactions" (tx_id d)) (with_transaction d w))
        end
    end.

Definition saveTransaction (data : transactionData) : M transactionDoc :=
  try_catch (addDoc_transaction data) rethrow.

(** [getUserImages]: the images of a user, newest first.  The query is
    recorded in the trace by its collection and the user it filters on. *)
Definition getUserImages (userId : string) : M (list imageDoc) :=
  try_catch
    (fun w =>
       (Val (newest_first img_createdAt img_id
               (List.filter (fun d => String.eqb (img_userId (img_data d)) userId) (images w))),
        with_trace (FirestoreGet "images" userId) w))
    rethrow.

(** [getUserTransactions]: the transactions of a user, newest first. *)
Definition getUserTransactions (userId : string) : M (list transactionDoc) :=
  try_catch
    (fun w =>
       (Val (newest_first tx_createdAt tx_id
               (List.filter (fun d => String.eqb (tx_userId (tx_data d)) userId)
                  (transactions w))),
        with_trace (FirestoreGet "transactions" userId) w))
    rethrow.

End Firebase.

(* ===================================================================== *)
(** * index.js: the HTTP handlers                                        *)
(* ===================================================================== *)

(** The double quote, for the film titles of the style templates. *)
Definition dq : string := String (ascii_of_nat 34) EmptyString.

Definition style_prefix : string :=
  "Create a Studio Ghibli artwork in Hayao Miyazaki's distinctive style showing the exact same scene with ".

Definition like_in (a b : string) : string :=
  " like in " +:+ dq +:+ a +:+ dq +:+ " or " +:+ dq +:+ b +:+ dq.

(** The own properties of the [styleGuide] object literal. *)
Definition styleGuide : gmap string string :=
  list_to_map
    [ ("ghibli-nature",
       style_prefix +:+ "hand-painted textures, soft pastel colors, and dreamy atmosphere"
         +:+ like_in "My Neighbor Totoro" "Princess Mononoke");
      ("ghibli-character",
       style_prefix +:+ "simple rounded features, expressive eyes, and soft colors"
         +:+ like_in "Spirited Away" "Kiki's Delivery Service");
      ("ghibli-cityscape",
       style_prefix +:+ "detailed architecture, warm lighting, and nostalgic atmosphere"
         +:+ like_in "Whisper of the Heart" "From Up On Poppy Hill");
      ("ghibli-fantasy",
       style_prefix +:+ "magical elements, whimsical creatures, and ethereal lighting"
         +:+ like_in "Spirited Away" "Howl's Moving Castle") ].

(** The methods every object literal inherits from [Object.prototype]. *)
Definition Object_prototype_methods : list string :=
  [ "hasOwnProperty"; "isPrototypeOf"; "propertyIsEnumerable";
    "toLocaleString"; "toString"; "valueOf";
    "__defineGetter__"; "__defineSetter__";
    "__lookupGetter__"; "__lookupSetter__" ].

(** A property read that reaches [Object.prototype]: [constructor] is the
    function [Object], [__proto__] is the accessor that answers the
    prototype of the receiver, which is [Object.prototype] for an object
    literal. *)
Definition Object_prototype_get (key : string) : jsval :=
  if String.eqb key "constructor" then JNativeFn "Object"
  else if String.eqb key "__proto__" then JObjectProto
  else if existsb (String.eqb key) Object_prototype_methods then JNativeFn key
  else JUndefined.

(** [styleGuide[key]]: an own property, else the prototype's. *)
Definition styleGuide_get {printer : NumberPrinter} (key : jsval) : jsval :=
  let name := js_toString key in
  match styleGuide !! name with
  | Some template => JStr template
  | None => Object_prototype_get name
  end.

Definition default_prompt : string := "Transform this image into Studio Ghibli style".

(** [prompt || 'Transform this image into Studio Ghibli style'] *)
Definition userPrompt_of {printer : NumberPrinter} (prompt : option string) : string :=
  js_toString (js_or (of_field prompt) (JStr default_prompt)).

(** The construction of [finalPrompt], statement by statement. *)
Definition composePrompt {printer : NumberPrinter}
    (imageDescription : string) (style prompt : option string) : string :=
  let finalPrompt := "" in
  let finalPrompt := finalPrompt +:+
    "I want you to create a Studio Ghibli style artwork by Hayao Miyazaki based on this image description. " in
  let finalPrompt :=
    if truthy (JStr imageDescription)
    then finalPrompt +:+ "The image shows: " +:+ imageDescription +:+ " "
    else finalPrompt in
  let finalPrompt := finalPrompt +:+
    js_toString (js_or (styleGuide_get (of_field style))
                       (styleGuide_get (JStr "ghibli-nature"))) +:+ ". " in
  let finalPrompt :=
    match prompt with
    | Some p =>
        if truthy (JStr p) && negb (String.eqb (js_trim p) "")
        then finalPrompt +:+ userPrompt_of prompt +:+ ". "
        else finalPrompt
    | None => finalPrompt
    end in
  finalPrompt.

Definition MAX_PROMPT_LENGTH : Z := 950.

Definition refusal_prefix : string :=
  "I'm unable to analyze the image in detail as requested".

(** The file of a multipart request, as multer hands it over. *)
Record uploadedFile := {
  originalname : string;
  mimetype : string;
  file_buffer : buffer
}.

(** The [fileFilter] of the multer instance:
    [file.originalname.match(/\.(jpg|jpeg|png)$/)]. *)
Definition fileFilter (file : uploadedFile) : bool :=
  endsWith (originalname file) ".jpg"
  || endsWith (originalname file) ".jpeg"
  || endsWith (originalname file) ".png".

(** [limits: { fileSize: 4 * 1024 * 1024 }] *)
Definition fileSizeLimit : Z := 4 * 1024 * 1024.

(** The body of [POST /api/create-order]; a missing field is [JUndefined]. *)
Record createOrderBody := {
  co_price : jsval;
  co_userId : jsval;
  co_credits : jsval
}.

(** What [razorpay.orders.create] resolves to. *)
Record razorpayOrder := {
  order_id : jsval;
  order_amount : jsval;
  order_currency : jsval
}.

(** The body of [POST /api/verify-payment]: the six fields the handler
    reads, each with whatever JSON value the request holds; a missing
    field is [JUndefined]. *)
Record verifyBody := {
  razorpay_order_id : jsval;
  razorpay_payment_id : jsval;
  razorpay_signature : jsval;
  vb_credits : jsval;
  vb_userId : jsval;
  vb_amount : jsval
}.

(** A multipart request to [POST /api/upload-image]: the part named
    [image] if there is one, the text fields, and what the handler reads
    from its environment. *)
Record uploadRequest := {
  up_image : option uploadedFile;
  up_prompt : option string;
  up_style : option string;
  up_detailLevel : option string;
  up_userId : option string;
  up_protocol : string;
  up_host : string;
  up_random : Z      (* [Math.round(Math.random() * 1E9)] *)
}.

(* ===================================================================== *)
(** * Test doubles for the code the server calls                         *)
(* ===================================================================== *)

(** Stand-ins for the third-party code, and a few requests and worlds, on
    which the statements below are run. *)
Module Double.

(** A reader of unsigned decimal numerals, which is all the text the
    requests below put where a number is read; any other text is NaN. *)
Fixpoint numeral (s : string) (acc : Z) : option Z :=
  match s with
  | EmptyString => Some acc
  | String c s' =>
      let d := Z.of_nat (nat_of_ascii c) - 48 in
      if (0 <=? d) && (d <=? 9) then numeral s' (10 * acc + d) else None
  end.

Definition StringToNumber (s : string) : float :=
  match numeral s 0 with Some n => Z2float n | None => nan end.

(** No request below prints a number that is not an integer. *)
Definition printer : NumberPrinter := fun _ => "0.5".

(** A store that accepts every append. *)
Definition firestore : Firestore :=
  {| doc_rejects := fun _ =>
       {| message := "path.indexOf is not a function"; err_status := None |};
     undefined_rejects := fun collection field =>
       {| message := "Unsupported field value: undefined (found in field " +:+ field +:+ ")";
          err_status := None |};
     images_addDoc_rejects := fun _ _ => None;
     transactions_addDoc_rejects := fun _ _ => None |}.


Definition autoId (n : nat) : string := "doc-" +:+ pretty (Z.of_nat n).
Definition key_id : string := "rzp_test_key".
Definition key_secret : string := "rzp_test_secret".
Definition uploadDir : string := "/srv/uploads".
Definition hmac (key data : string) : string := "mac:" +:+ key +:+ ":" +:+ data.
Definition extname (name : string) : string := ".png".
Definition sharp_pass (b : buffer) : option buffer := Some b.
Definition sharp_broken (b : buffer) : option buffer := None.
Definition sharp_metadata (b : buffer) : bool := true.
Definition base64 (b : buffer) : string := "iVBORw0KGgo=".

Definition razorpay (options : orderOptions) : jserror + razorpayOrder :=
  inr {| order_id := JStr "order_1";
         order_amount := amount options;
         order_currency := JStr (currency options) |}.

(** A vision model that answers [text] whatever the image. *)
Definition vision (text : string) (image_url : string) : jserror + string := inr text.

(** A vision model that is down. *)
Definition vision_down (image_url : string) : jserror + string :=
  inl {| message := "Service Unavailable"; err_status := Some 503 |}.

Definition image_model (prompt : string) : jserror + option string :=
  inr (Some "https://images.example/out.png").

Fixpoint repeat_string (n : nat) (s : string) : string :=
  match n with
  | O => ""
  | S n' => s +:+ repeat_string n' s
  end.

(** A description of 1200 characters. *)
Definition long_description : string := repeat_string 100 "A quiet sea. ".

Definition new_user (credits : jsval) : userDoc :=
  {| u_credits := credits; u_createdAt := Some 1; u_updatedAt := Some 1; u_other := ∅ |}.

Definition empty_world : world :=
  {| users := ∅; images := []; transactions := []; trace := [];
     clock := 1700000000000; ids_drawn := 0 |}.

(** A world whose only user is [u1], with the given [credits] field. *)
Definition world_of (credits : jsval) : world :=
  {| users := {[ "u1" := new_user credits ]}; images := []; transactions := [];
     trace := []; clock := 1700000000000; ids_drawn := 0 |}.

(** An image model that rejects with the given message. *)
Definition image_model_rejecting (msg : string) (prompt : string) : jserror + option string :=
  inl {| message := msg; err_status := Some 400 |}.

(** An image model whose response holds no URL. *)
Definition image_model_without_url (prompt : string) : jserror + option string := inr None.

(** A payment provider that is down. *)
Definition razorpay_down (options : orderOptions) : jserror + razorpayOrder :=
  inl {| message := "gateway timeout"; err_status := Some 504 |}.

Definition purchase_of (userId : string) (credits createdAt : Z) (id : string) : transactionDoc :=
  {| tx_id := id;
     tx_data := {| tx_userId := userId; tx_orderId := None; tx_paymentId := None;
                   tx_amount := None; tx_imageId := None; tx_credits := JNum credits;
                   tx_type := "purchase"; tx_prompt := None |};
     tx_createdAt := createdAt |}.

(** A world with two users and a ledger of three purchases, recorded out
    of chronological order. *)
Definition ledger_world : world :=
  {| users := {[ "u1" := new_user (JNum 15); "u2" := new_user (JNum 7) ]};
     images := [];
     transactions := [ purchase_of "u1" 5 200 "t-b"; purchase_of "u2" 7 100 "t-a";
                       purchase_of "u1" 10 300 "t-c" ];
     trace := []; clock := 1700000000000; ids_drawn := 3 |}.

Definition photo : uploadedFile :=
  {| originalname := "cat.png"; mimetype := "image/png"; file_buffer := [x89; x50; x4e; x47] |}.

Definition upload (file : option uploadedFile) (userId style : option string) : uploadRequest :=
  {| up_image := file; up_prompt := None; up_style := style; up_detailLevel := None;
     up_userId := userId; up_protocol := "https"; up_host := "api.example";
     up_random := 42 |}.

(** A payment of 100 rupees for 10 credits. *)
Definition payment (signature : string) (userId : option string) : verifyBody :=
  {| razorpay_order_id := JStr "order_1"; razorpay_payment_id := JStr "pay_1";
     razorpay_signature := JStr signature; vb_credits := JNum 10;
     vb_userId := of_field userId; vb_amount := JNum 100 |}.

(** The same payment with another value in the place of [credits]. *)
Definition payment_crediting (credits : jsval) (signature userId : string) : verifyBody :=
  {| razorpay_order_id := JStr "order_1"; razorpay_payment_id := JStr "pay_1";
     razorpay_signature := JStr signature; vb_credits := credits;
     vb_userId := JStr userId; vb_amount := JNum 100 |}.

End Double.

Section Server.

(** ** What the process is configured with, and the code it calls *)

Variable StringToNumber : string -> float.
Variable autoId : nat -> string.

Context {printer : NumberPrinter} {store : Firestore}.

(** [process.env.RAZORPAY_KEY_ID], [process.env.RAZORPAY_KEY_SECRET],
    whether [process.env.NODE_ENV === 'development'], and
    [path.join(__dirname, 'uploads')]. *)
Variable RAZORPAY_KEY_ID : string.
Variable RAZORPAY_KEY_SECRET : string.
Variable development : bool.
Variable uploadDir : string.

(** [crypto.createHmac('sha256', key).update(data).digest('hex')] *)
Variable hmac_sha256_hex : string -> string -> string.

(** [path.extname] *)
Variable path_extname : string -> string.

(** [sharp]: the first pass (fit inside 1024x1024 without enlargement,
    sRGB, alpha, PNG), the second pass (fit inside 800x800, PNG at
    compression level 9), and whether [metadata()] resolves.  [None] is
    a rejected promise. *)
Variable sharp_normalize : buffer -> option buffer.
Variable sharp_compress : buffer -> option buffer.
Variable sharp_metadata : buffer -> bool.

(** [buffer.toString('base64')] *)
Variable base64 : buffer -> string.

(** The three providers: what a call resolves to ([inr]) or rejects
    with ([inl]).  The vision model answers [output_text]; the image
    model answers [data[0].url] when the response has one. *)
Variable razorpay_orders_create : orderOptions -> jserror + razorpayOrder.
Variable openai_responses_create : string -> jserror + string.
Variable openai_images_generate : string -> jserror + option string.

Definition await {A} (e : event) (r : jserror + A) : M A :=
  fun w => (match r with inl err => Thrown err | inr a => Val a end, with_trace e w).

(** ** POST /api/create-order *)

Definition create_order (b : createOrderBody) : M unit :=
  try_catch
    (let price := co_price b in
     let userId := co_userId b in
     let credits := co_credits b in
     let! t := now in
     let options :=
       {| amount := js_mul StringToNumber price (JNum 100);
          currency := "INR";
          receipt := "receipt_order_" +:+ pretty t;
          notes_userId := userId;
          notes_credits := credits |} in
     let! order := await (RazorpayOrdersCreate options) (razorpay_orders_create options) in
     reply 200 [ ("id", order_id order);
                 ("amount", order_amount order);
                 ("currency", order_currency order);
                 ("key", JStr RAZORPAY_KEY_ID) ])
    (fun error => reply 500 [ ("error", JStr (message error)) ]).

(** ** POST /api/verify-payment *)

Definition verify_payment (b : verifyBody) : M unit :=
  try_catch
    (let credits := vb_credits b in
     let userId := vb_userId b in
     if negb (truthy userId)
     then reply 400 [ ("error", JStr "User ID is required") ]
     else
       let generatedSignature :=
         hmac_sha256_hex RAZORPAY_KEY_SECRET
           (js_toString (razorpay_order_id b) +:+ "|" +:+ js_toString (razorpay_payment_id b)) in
       if strict_equals_string generatedSignature (razorpay_signature b)
       then
         (* the reference to the user document is built, and refused for
            a [userId] that is not a string, inside [getUserById] *)
         let! id := doc_users userId in
         let! user := getUserById id in
         (match user with
          | None =>
              let! t := now in
              createOrUpdateUser id
                {| f_credits := Some (JNum 0); f_createdAt := Some t; f_other := ∅ |};;;
              ret tt
          | Some _ => ret tt
          end);;;
         let! updatedCredits := updateUserCredits StringToNumber id credits in
         saveTransaction autoId
           {| tx_userId := id;
              tx_orderId := Some (razorpay_order_id b);
              tx_paymentId := Some (razorpay_payment_id b);
              tx_amount := Some (js_or (vb_amount b) (JNum 0));   (* [req.body.amount || 0] *)
              tx_imageId := None;
              tx_credits := credits;
              tx_type := "purchase";
              tx_prompt := None |};;;
         reply 200 [ ("success", JBool true); ("credits", updatedCredits) ]
       else reply 400 [ ("error", JStr "Payment verification failed") ])
    (fun error => reply 500 [ ("error", JStr (message error)) ]).

(** ** POST /api/upload-image *)

(** [upload.single('image')] wrapped by [uploadMiddleware].
    Modelled from multer's documented behaviour, multer itself being a
    dependency: a request without the part goes on with [req.file]
    undefined; a part that [fileFilter] refuses, or whose size exceeds
    [limits.fileSize], ends the request with the 400 of the wrapper. *)
Definition uploadMiddleware (req : uploadRequest) (next : option uploadedFile -> M unit) : M unit :=
  match up_image req with
  | None => next None
  | Some file =>
      if negb (fileFilter file)
      then reply 400 [ ("error", JStr ("File upload error: " +:+ "Only JPG and PNG files are allowed!")) ]
      else if fileSizeLimit <? Z.of_nat (length (file_buffer file))
      then reply 400 [ ("error", JStr ("File upload error: " +:+ "File too large")) ]
      else next (Some file)
  end.

(** The two [sharp] passes.  A failure of the first pass, or of the
    [metadata()] read that follows it in the same [try], falls back to
    the original buffer; in the second pass the buffer is assigned
    before [metadata()] is read, so only a failure of the pass itself
    keeps the previous buffer.  Each pass catches what it throws, so the
    [catch] around the two is never entered, and a [Buffer] is truthy, so
    neither is the later [if (!processedImageBuffer)]. *)
Definition processImage (original : buffer) : buffer :=
  let processedImageBuffer :=
    match sharp_normalize original with
    | Some b => if sharp_metadata b then b else original
    | None => original
    end in
  (* bufferSizeInMB > 3.9, with bufferSizeInMB = length / (1024 * 1024) *)
  if 39 * (1024 * 1024) <? 10 * Z.of_nat (length processedImageBuffer)
  then match sharp_compress processedImageBuffer with
       | Some b => b
       | None => processedImageBuffer
       end
  else processedImageBuffer.

(** [{ details: cond ? msg : undefined }] *)
Definition details_if (cond : bool) (msg : string) : list (string * jsval) :=
  if cond then [ ("details", JStr msg) ] else [].

Definition upload_image_handler (req : uploadRequest) (file : option uploadedFile) : M unit :=
  try_catch
    (let prompt := up_prompt req in
     let style := up_style req in
     let detailLevel := up_detailLevel req in
     let userId := up_userId req in
     if negb (truthy (of_field userId))
     then reply 400 [ ("error", JStr "User ID is required") ]
     else
     let userId := default "" userId in
     match file with
     | None =>
         reply 400 [ ("error", JStr "No image file was uploaded. Please select an image to transform.") ]
     | Some file =>
     if (length (file_buffer file) =? 0)%nat
     then reply 400 [ ("error", JStr "The uploaded file is empty. Please select a valid image.") ]
     else
     let! user := getUserById userId in
     match user with
     | None => reply 404 [ ("error", JStr "User not found") ]
     | Some user =>
     if negb (truthy (u_credits user)) || js_lt StringToNumber (u_credits user) (JNum 1)
     then reply 400 [ ("error", JStr "Not enough credits") ]
     else
     let! t := now in
     let imageId := pretty t +:+ "-" +:+ pretty (up_random req) in
     let fileName := imageId +:+ "-original" +:+ path_extname (originalname file) in
     let tempFilePath := uploadDir +:+ "/" +:+ fileName in
     let fileUrl := up_protocol req +:+ "://" +:+ up_host req +:+ "/uploads/" +:+ fileName in
     emit (DiskWrite tempFilePath (file_buffer file));;;
     (* [cleanupTempFiles()] arms a timer; where the source calls it
        right after sending the response, it is recorded right before *)
     let cleanupTempFiles := emit (CleanupScheduled tempFilePath) in
     let processedImageBuffer := processImage (file_buffer file) in
     let userPrompt := userPrompt_of prompt in
     let base64Image := base64 processedImageBuffer in
     let image_url := "data:image/png;base64," +:+ base64Image in
     let! imageDescription :=
       await (OpenAIResponsesCreate image_url) (openai_responses_create image_url) in
     if startsWith imageDescription refusal_prefix
     then
       cleanupTempFiles;;;
       reply 400
         [ ("error", JStr "Our AI system could not properly analyze your image. Please try a different image with clearer content.");
           ("details", JStr "Vision model unable to process image details") ]
     else
     let finalPrompt := composePrompt imageDescription style prompt in
     (if MAX_PROMPT_LENGTH <? Z.of_nat (String.length finalPrompt)
      then emit (ConsoleLog ("Prompt too long (" +:+ pretty (Z.of_nat (String.length finalPrompt))
                             +:+ " chars). Truncating to " +:+ pretty MAX_PROMPT_LENGTH +:+ " chars."))
           (* finalPrompt = finalPrompt.substring(0, MAX_PROMPT_LENGTH) + '...'; is commented out *)
      else ret tt);;;
     let! response :=
       try_catch
         (await (OpenAIImagesGenerate finalPrompt) (openai_images_generate finalPrompt))
         (fun openaiError =>
            cleanupTempFiles;;;
            if includes (message openaiError) "Invalid input image"
            then reply 400
                   [ ("error", JStr "The image format is not compatible with our AI system. Please try a different image.");
                     ("details", JStr (message openaiError)) ]
            else reply 500
                   ([ ("error", JStr "Error generating image with AI. Please try again or use a different image.") ]
                    ++ details_if development (message openaiError))) in
     if negb (truthy (of_field response))
     then
       cleanupTempFiles;;;
       reply 500
         ([ ("error", JStr "Failed to generate image. The AI service returned an invalid response.") ]
          ++ details_if development "Missing image URL in response")
     else
     let imageUrl := default "" response in
     let! updatedCredits := updateUserCredits StringToNumber userId (JNum (-1)) in
     let! savedImage :=
       saveGeneratedImage autoId
         {| img_userId := userId;
            img_prompt := userPrompt;
            img_enhancedPrompt := finalPrompt;
            img_imageDescription := imageDescription;
            img_originalImageUrl := fileUrl;
            img_style := js_toString (js_or (of_field style) (JStr "ghibli-nature"));
            img_detailLevel := js_or (of_field detailLevel) (JNum 50);
            img_imageUrl := imageUrl |} in
     saveTransaction autoId
       {| tx_userId := userId;
          tx_orderId := None;
          tx_paymentId := None;
          tx_amount := None;
          tx_imageId := Some (img_id savedImage);
          tx_credits := JNum (-1);
          tx_type := "image-transformation";
          tx_prompt := Some userPrompt |};;;
     cleanupTempFiles;;;
     reply 200
       [ ("success", JBool true);
         ("imageUrl", JStr imageUrl);
         ("originalImageUrl", JStr fileUrl);
         ("credits", updatedCredits);
         ("originalPrompt", JStr userPrompt);
         ("enhancedPrompt", JStr finalPrompt);
         ("imageDescription", JStr imageDescription) ]
     end
     end)
    (* [cleanupTempFiles] is a [const] of the [try] block: the call in
       the [catch] block is a ReferenceError, thrown before any
       response is sent *)
    (fun error => throw "cleanupTempFiles is not defined").

Definition upload_image (req : uploadRequest) : M unit :=
  uploadMiddleware req (upload_image_handler req).

(** ** What the statements below speak about *)

(** [!user.credits || user.credits < 1] *)
Definition insufficient_credits (user : userDoc) : bool :=
  negb (truthy (u_credits user)) || js_lt StringToNumber (u_credits user) (JNum 1).

(** The request got through multer and the presence checks of the
    handler: a part named [image] with an accepted name, within the size
    limit and not empty, and a non-empty [userId]. *)
Definition accepted (req : uploadRequest) (file : uploadedFile) (userId : string) : Prop :=
  up_image req = Some file /\
  fileFilter file = true /\
  Z.of_nat (length (file_buffer file)) <= fileSizeLimit /\
  file_buffer file <> [] /\
  up_userId req = Some userId /\
  userId <> "".

(** The local constants of the upload handler, by what they depend on. *)
Definition fileName_of (w : world) (req : uploadRequest) (file : uploadedFile) : string :=
  (pretty (clock w) +:+ "-" +:+ pretty (up_random req))
    +:+ "-original" +:+ path_extname (originalname file).

Definition tempFilePath_of (w : world) (req : uploadRequest) (file : uploadedFile) : string :=
  uploadDir +:+ "/" +:+ fileName_of w req file.

Definition fileUrl_of (w : world) (req : uploadRequest) (file : uploadedFile) : string :=
  up_protocol req +:+ "://" +:+ up_host req +:+ "/uploads/" +:+ fileName_of w req file.

Definition image_url_of (file : uploadedFile) : string :=
  "data:image/png;base64," +:+ base64 (processImage (file_buffer file)).

(** The credit delta of a transaction, when it is a whole number. *)
Definition whole_delta (t : transactionDoc) : option Z :=
  match tx_credits (tx_data t) with JNum n => Some n | _ => None end.

(** The sum of the whole credit deltas the ledger holds for a user. *)
Definition ledger_sum (userId : string) (txs : list transactionDoc) : Z :=
  fold_right
    (fun t acc =>
       if String.eqb (tx_userId (tx_data t)) userId
       then default 0 (whole_delta t) + acc else acc)
    0 txs.

(** The balance on record when it is a number; a user without a record
    has a balance of zero. *)
Definition balance_on_record (w : world) (userId : string) : option Z :=
  match users w !! userId with
  | None => Some 0
  | Some user => match u_credits user with JNum n => Some n | _ => None end
  end.

(** Every delta of the ledger is a whole number, and every balance is
    the sum of the deltas the ledger holds for its user, a sum within the
    range in which whole numbers are exact. *)
Definition ledger_consistent (w : world) : Prop :=
  Forall (fun t => whole_delta t <> None) (transactions w)
  /\ forall userId,
       balance_on_record w userId = Some (ledger_sum userId (transactions w))
       /\ Z.abs (ledger_sum userId (transactions w)) <= 2 ^ 53.

(** The status code of the response, when there is one. *)
Definition status_of_outcome (o : outcome) : option Z :=
  match o with Responded r => Some (status r) | _ => None end.

(** The three collections of [w'] are those of [w]. *)
Definition same_collections (w w' : world) : Prop :=
  users w' = users w /\ images w' = images w /\ transactions w' = transactions w.

(** The request passed intake and entitlement, and the vision model
    described the image without refusing. *)
Definition described (req : uploadRequest) (file : uploadedFile) (userId : string)
    (user : userDoc) (description : string) (w : world) : Prop :=
  accepted req file userId /\
  users w !! userId = Some user /\
  insufficient_credits user = false /\
  openai_responses_create (image_url_of file) = inr description /\
  startsWith description refusal_prefix = false.

(** The world after the given calls have left the process, in order. *)
Definition with_events (es : list event) (w : world) : world :=
  fold_left (fun w' e => with_trace e w') es w.

(** The prompts handed to [openai.images.generate] in a trace. *)
Fixpoint prompts_generated (tr : list event) : list string :=
  match tr with
  | OpenAIImagesGenerate p :: tr' => p :: prompts_generated tr'
  | _ :: tr' => prompts_generated tr'
  | [] => []
  end.

Ltac run_monad :=
  cbv beta iota zeta delta
    [run bind ret try_catch rethrow throw reply emit now await
     getUserById getDoc_user setDoc_user updateDoc_user createOrUpdateUser
     updateUserCredits saveGeneratedImage saveTransaction].

(** ** Strings *)

Lemma append_cons (c : ascii) (a b : string) : String c a +:+ b = String c (a +:+ b).
Proof. reflexivity. Qed.

Lemma append_cancel_l (p a b : string) : p +:+ a = p +:+ b -> a = b.
Proof.
  induction p as [|c p IH]; intros H; [exact H|].
  rewrite !append_cons in H. injection H as H. exact (IH H).
Qed.

Lemma append_assoc (a b c : string) : (a +:+ b) +:+ c = a +:+ (b +:+ c).
Proof.
  induction a as [|x a IH]; [reflexivity|].
  rewrite !append_cons, IH. reflexivity.
Qed.

Lemma append_empty_r (a : string) : a +:+ "" = a.
Proof.
  induction a as [|x a IH]; [reflexivity|].
  rewrite append_cons, IH. reflexivity.
Qed.

Lemma prefix_iff (p s : string) :
  String.prefix p s = true <-> exists t, s = p +:+ t.
Proof.
  revert s. induction p as [|c p IH]; intros s.
  - split; [intros _; now exists s | intros _; destruct s; reflexivity].
  - destruct s as [|d s]; cbn [String.prefix].
    + split; [discriminate | intros [t Ht]; discriminate].
    + destruct (Ascii.ascii_dec c d) as [->|Hcd].
      * rewrite IH. split; intros [t Ht]; exists t.
        -- rewrite append_cons. congruence.
        -- rewrite append_cons in Ht. congruence.
      * split; [discriminate | intros [t Ht]].
        rewrite append_cons in Ht. congruence.
Qed.

Lemma rev_onto_spec (s acc : string) : rev_onto s acc = string_rev s +:+ acc.
Proof.
  unfold string_rev. revert acc.
  induction s as [|c s IH]; intros acc; [reflexivity|].
  cbn [rev_onto].
  rewrite (IH (String c acc)), (IH (String c "")), append_assoc. reflexivity.
Qed.

Lemma string_rev_app (a b : string) :
  string_rev (a +:+ b) = string_rev b +:+ string_rev a.
Proof.
  induction a as [|c a IH].
  - change ("" +:+ b) with b. now rewrite append_empty_r.
  - rewrite append_cons. unfold string_rev in *. cbn [rev_onto].
    rewrite !(rev_onto_spec _ (String c "")). unfold string_rev.
    rewrite IH, append_assoc. reflexivity.
Qed.

Lemma string_rev_involutive (s : string) : string_rev (string_rev s) = s.
Proof.
  induction s as [|c s IH]; [reflexivity|].
  change (String c s) with (String c "" +:+ s) at 1.
  rewrite string_rev_app, string_rev_app, IH. reflexivity.
Qed.

(** [endsWith] is what its name says: the test of [/suffix$/]. *)
Lemma endsWith_iff (s suffix : string) :
  endsWith s suffix = true <-> exists p, s = p +:+ suffix.
Proof.
  unfold endsWith. rewrite prefix_iff. split.
  - intros [t Ht]. exists (string_rev t).
    rewrite <- (string_rev_involutive s), Ht, string_rev_app, string_rev_involutive.
    reflexivity.
  - intros [p ->]. exists (string_rev p). apply string_rev_app.
Qed.

Lemma truthy_JStr (s : string) : s <> "" -> truthy (JStr s) = true.
Proof.
  intros H. cbn. destruct (String.eqb_spec s ""); [congruence | reflexivity].
Qed.

Lemma length_eqb_0 {A} (l : list A) : l <> [] -> (length l =? 0)%nat = false.
Proof. destruct l; [congruence | reflexivity]. Qed.

(** The sum of two whole numbers is exact as long as its magnitude does
    not exceed 2^53. *)
Lemma js_add_whole (n d : Z) :
  Z.abs (n + d) <= 2 ^ 53 -> js_add StringToNumber (JNum n) (JNum d) = JNum (n + d).
Proof.
  intros H. unfold js_add, add_numbers, round_to_double.
  cbn [js_toPrimitive js_toNumber].
  destruct (Z.eqb_spec n 0) as [-> | _]; [reflexivity |].
  destruct (Z.eqb_spec d 0) as [-> | _]; [now rewrite Z.add_0_r |].
  now rewrite (proj2 (Z.leb_le _ _) H).
Qed.

(** A whole balance, read the way [updateUserCredits] reads it, plus a
    whole delta. *)
Lemma js_add_balance (n d : Z) :
  Z.abs (n + d) <= 2 ^ 53 ->
  js_add StringToNumber (js_or (JNum n) (JNum 0)) (JNum d) = JNum (n + d).
Proof.
  intros H. unfold js_or. cbn [truthy].
  destruct (Z.eqb_spec n 0) as [-> | _]; cbn [negb]; now apply js_add_whole.
Qed.


(** ** The two appends *)

(** How an append to [images] ends: refused before it is sent, rejected,
    or stored under a fresh id with the time of the call. *)
Lemma addDoc_image_cases (data : imageData) (w : world) :
  (exists e, addDoc_image autoId data w = (Thrown e, w))
  \/ (exists e, addDoc_image autoId data w
                = (Thrown e, with_trace (FirestoreAdd "images" (autoId (ids_drawn w))) w))
  \/ addDoc_image autoId data w
     = (let d := {| img_id := autoId (ids_drawn w); img_data := data;
                    img_createdAt := clock w |} in
        (Val d, with_trace (FirestoreAdd "images" (img_id d)) (with_image d w))).
Proof.
  unfold addDoc_image. destruct (undefined_in_image data); [left; eauto |].
  destruct (images_addDoc_rejects data w); [right; left; eauto | right; right; reflexivity].
Qed.

Lemma addDoc_transaction_cases (data : transactionData) (w : world) :
  (exists e, addDoc_transaction autoId data w = (Thrown e, w))
  \/ (exists e, addDoc_transaction autoId data w
                = (Thrown e, with_trace (FirestoreAdd "transactions" (autoId (ids_drawn w))) w))
  \/ addDoc_transaction autoId data w
     = (let d := {| tx_id := autoId (ids_drawn w); tx_data := data;
                    tx_createdAt := clock w |} in
        (Val d, with_trace (FirestoreAdd "transactions" (tx_id d)) (with_transaction d w))).
Proof.
  unfold addDoc_transaction. destruct (undefined_in_transaction data); [left; eauto |].
  destruct (transactions_addDoc_rejects data w);
    [right; left; eauto | right; right; reflexivity].
Qed.

(** An append that holds no [undefined] and that Firestore accepts. *)
Lemma addDoc_image_accepted (data : imageData) (w : world) :
  undefined_in_image data = None ->
  images_addDoc_rejects data w = None ->
  addDoc_image autoId data w
  = (let d := {| img_id := autoId (ids_drawn w); img_data := data;
                 img_createdAt := clock w |} in
     (Val d, with_trace (FirestoreAdd "images" (img_id d)) (with_image d w))).
Proof. intros Hdef Hok. unfold addDoc_image. now rewrite Hdef, Hok. Qed.

Lemma addDoc_transaction_accepted (data : transactionData) (w : world) :
  undefined_in_transaction data = None ->
  transactions_addDoc_rejects data w = None ->
  addDoc_transaction autoId data w
  = (let d := {| tx_id := autoId (ids_drawn w); tx_data := data;
                 tx_createdAt := clock w |} in
     (Val d, with_trace (FirestoreAdd "transactions" (tx_id d)) (with_transaction d w))).
Proof. intros Hdef Hok. unfold addDoc_transaction. now rewrite Hdef, Hok. Qed.

(** Case analysis on the next append the goal runs into. *)
Ltac save_cases :=
  match goal with
  | |- context [addDoc_image autoId ?d ?w0] =>
      destruct (addDoc_image_cases d w0) as [[? ->] | [[? ->] | ->]]
  | |- context [addDoc_transaction autoId ?d ?w0] =>
      destruct (addDoc_transaction_cases d w0) as [[? ->] | [[? ->] | ->]]
  end;
  cbv beta iota zeta;
  cbn [users images transactions trace clock ids_drawn
       with_trace with_users with_image with_transaction fst snd].

Ltac save_cases_in H :=
  let Hs := fresh "Hs" in
  match type of H with
  | context [addDoc_image autoId ?d ?w0] =>
      destruct (addDoc_image_cases d w0) as [[? Hs] | [[? Hs] | Hs]]
  | context [addDoc_transaction autoId ?d ?w0] =>
      destruct (addDoc_transaction_cases d w0) as [[? Hs] | [[? Hs] | Hs]]
  end;
  rewrite Hs in H; clear Hs;
  cbv beta iota zeta in H;
  cbn [users images transactions trace clock ids_drawn
       with_trace with_users with_image with_transaction fst snd] in H.

Ltac run_monad_in H :=
  cbv beta iota zeta delta
    [run bind ret try_catch rethrow throw reply emit now await
     getUserById getDoc_user setDoc_user updateDoc_user createOrUpdateUser
     updateUserCredits saveGeneratedImage saveTransaction] in H.

Ltac simpl_world_in H :=
  cbn [users images transactions trace clock ids_drawn
       with_trace with_users with_image with_transaction fst snd] in H.

(** The hypothesis [Hrun] says that the request was answered with [r],
    [H200] that [r] is a success: absurd on a path that throws or sends
    an error. *)
Ltac not_success Hrun H200 :=
  solve [ discriminate Hrun
        | injection Hrun as <- <-; cbn in H200; discriminate H200 ].

Ltac simpl_world :=
  cbn [users images transactions trace clock ids_drawn
       with_trace with_users with_image with_transaction fst snd].

Ltac enter_upload H :=
  let Himg := fresh "Himg" in let Hfilter := fresh "Hfilter" in
  let Hsize := fresh "Hsize" in let Hbuf := fresh "Hbuf" in
  let Huid := fresh "Huid" in let Hne := fresh "Hne" in
  destruct H as (Himg & Hfilter & Hsize & Hbuf & Huid & Hne);
  unfold upload_image, uploadMiddleware, upload_image_handler;
  rewrite Himg, Hfilter; cbn [negb];
  rewrite (proj2 (Z.ltb_ge _ _) Hsize);
  rewrite Huid; cbn [of_field]; rewrite (truthy_JStr _ Hne);
  cbn [negb default from_option id];
  rewrite (length_eqb_0 _ Hbuf);
  run_monad; cbn [users with_trace].

(** ** POST /api/create-order *)

(** The product of two whole numbers is exact as long as its magnitude
    does not exceed 2^53. *)
Lemma js_mul_whole (x y : Z) :
  Z.abs (x * y) <= 2 ^ 53 -> js_mul StringToNumber (JNum x) (JNum y) = JNum (x * y).
Proof.
  intros H. unfold js_mul, mul_numbers, round_to_double. cbn [js_toNumber].
  now rewrite (proj2 (Z.leb_le _ _) H).
Qed.

(** C5, as the code has it.  Whatever a create-order request holds, what
    reaches the payment provider as the amount is the product
    [price * 100] as JavaScript computes it, in the currency INR, with
    [userId] and [credits] attached untouched as the notes of the order;
    this one call is all that leaves the process.  For a price that is a
    whole number of rupees the product is exactly the number of paise, as
    long as that number does not exceed 2^53. *)
Theorem create_order_amount_in_paise (price userId credits : jsval) (w : world) :
  snd (run (create_order {| co_price := price; co_userId := userId; co_credits := credits |}) w) =
    with_trace
      (RazorpayOrdersCreate
         {| amount := js_mul StringToNumber price (JNum 100);
            currency := "INR";
            receipt := "receipt_order_" +:+ pretty (clock w);
            notes_userId := userId;
            notes_credits := credits |}) w
  /\ (forall rupees, price = JNum rupees -> Z.abs (rupees * 100) <= 2 ^ 53 ->
        js_mul StringToNumber price (JNum 100) = JNum (rupees * 100)).
Proof.
  split.
  - unfold create_order. run_monad. cbn [co_price co_userId co_credits].
    destruct (razorpay_orders_create _); reflexivity.
  - intros rupees -> Hexact. now apply js_mul_whole.
Qed.

(** C6.  A create-order request without [price] is not refused: the
    provider is called with the amount NaN, and the answer is the 200 or
    the 500 that follows from the provider's, never a 400. *)
Theorem create_order_without_price (userId credits : jsval) (w : world) :
  let sent := {| amount := JNaN; currency := "INR";
                 receipt := "receipt_order_" +:+ pretty (clock w);
                 notes_userId := userId; notes_credits := credits |} in
  run (create_order {| co_price := JUndefined; co_userId := userId; co_credits := credits |}) w =
    (match razorpay_orders_create sent with
     | inr order =>
         Responded {| status := 200;
                      body := [ ("id", order_id order); ("amount", order_amount order);
                                ("currency", order_currency order);
                                ("key", JStr RAZORPAY_KEY_ID) ] |}
     | inl error =>
         Responded {| status := 500; body := [ ("error", JStr (message error)) ] |}
     end,
     with_trace (RazorpayOrdersCreate sent) w).
Proof.
  intros sent. unfold create_order. run_monad. cbn [co_price co_userId co_credits].
  change (js_mul StringToNumber JUndefined (JNum 100)) with JNaN. fold sent.
  destruct (razorpay_orders_create sent); reflexivity.
Qed.

(** ** POST /api/upload-image: intake and entitlement *)

(** C9.  A request without a user identifier, without the file, with an
    empty file, with a file above the size limit, or with a file whose
    name ends in none of .jpg, .jpeg and .png is answered with a 400, and
    the world is left as it was: no record is read or written and no
    call of any kind has left the process. *)
Theorem upload_intake_rejects (req : uploadRequest) (w : world) :
  up_userId req = None \/ up_userId req = Some ""
  \/ up_image req = None
  \/ (exists file, up_image req = Some file /\
        (file_buffer file = []
         \/ fileSizeLimit < Z.of_nat (length (file_buffer file))
         \/ (endsWith (originalname file) ".jpg" = false /\
             endsWith (originalname file) ".jpeg" = false /\
             endsWith (originalname file) ".png" = false))) ->
  exists r, run (upload_image req) w = (Responded r, w) /\ status r = 400.
Proof.
  intros H.
  unfold upload_image, uploadMiddleware, upload_image_handler, fileFilter. run_monad.
  destruct (up_image req) as [file|] eqn:Himg.
  - destruct (endsWith (originalname file) ".jpg" || endsWith (originalname file) ".jpeg"
              || endsWith (originalname file) ".png") eqn:Hname; cbn [negb];
      [| eexists; split; reflexivity].
    destruct (fileSizeLimit <? Z.of_nat (length (file_buffer file))) eqn:Hsize;
      [eexists; split; reflexivity |].
    destruct (up_userId req) as [[|c uid]|] eqn:Huid; cbn [of_field truthy String.eqb negb];
      try (eexists; split; reflexivity).
    destruct (file_buffer file) as [|b bs] eqn:Hbuf; cbn [length Nat.eqb];
      [eexists; split; reflexivity |].
    exfalso.
    destruct H as [H | [H | [H | (file' & Hf & H)]]]; try discriminate.
    injection Hf as <-. destruct H as [H | [H | (H1 & H2 & H3)]].
    + congruence.
    + rewrite Hbuf in H. apply Z.ltb_ge in Hsize. cbn [length] in *. lia.
    + rewrite H1, H2, H3 in Hname. discriminate.
  - destruct (up_userId req) as [[|c uid]|]; cbn [of_field truthy String.eqb negb];
      eexists; split; reflexivity.
Qed.



(** ** POST /api/upload-image: describe, compose, generate, settle *)

(** C7.  When the vision model's description starts with the refusal
    prefix, the request ends with the 400 "could not analyze" answer.
    What has happened by then is the read of the user, the write of the
    temporary file, the vision call and the arming of the cleanup: no
    image-generation call, and no write to any collection, so no credit
    is deducted. *)
Theorem vision_refusal_aborts
    (req : uploadRequest) (file : uploadedFile) (userId : string)
    (user : userDoc) (description : string) (w : world) :
  accepted req file userId ->
  users w !! userId = Some user ->
  insufficient_credits user = false ->
  openai_responses_create (image_url_of file) = inr description ->
  startsWith description refusal_prefix = true ->
  run (upload_image req) w =
    (Responded
       {| status := 400;
          body := [ ("error", JStr "Our AI system could not properly analyze your image. Please try a different image with clearer content.");
                    ("details", JStr "Vision model unable to process image details") ] |},
     with_events
       [ FirestoreGet "users" userId;
         DiskWrite (tempFilePath_of w req file) (file_buffer file);
         OpenAIResponsesCreate (image_url_of file);
         CleanupScheduled (tempFilePath_of w req file) ] w).
Proof.
  intros H Hu Hcredits Hvision Hrefusal.
  unfold insufficient_credits in Hcredits. unfold image_url_of in Hvision.
  enter_upload H. rewrite Hu, Hcredits, Hvision, Hrefusal. reflexivity.
Qed.

(** When the vision call rejects, the handler lands in its [catch]
    block, whose call of [cleanupTempFiles] is a ReferenceError: the
    request is left without a response.  Nothing was written to any
    collection by then. *)
Theorem vision_failure_unanswered
    (req : uploadRequest) (file : uploadedFile) (userId : string)
    (user : userDoc) (e : jserror) (w : world) :
  accepted req file userId ->
  users w !! userId = Some user ->
  insufficient_credits user = false ->
  openai_responses_create (image_url_of file) = inl e ->
  run (upload_image req) w =
    (Unhandled {| message := "cleanupTempFiles is not defined"; err_status := None |},
     with_events
       [ FirestoreGet "users" userId;
         DiskWrite (tempFilePath_of w req file) (file_buffer file);
         OpenAIResponsesCreate (image_url_of file) ] w).
Proof.
  intros H Hu Hcredits Hvision.
  unfold insufficient_credits in Hcredits. unfold image_url_of in Hvision.
  enter_upload H. rewrite Hu, Hcredits, Hvision. reflexivity.
Qed.

(** C4.  The composed prompt reaches the image model as it was
    composed, whatever its length: past 950 characters one line is
    logged and nothing is cut.  The generation call carries the whole of
    [composePrompt], and it is the only generation call of the request. *)
Theorem overlong_prompt_sent_whole
    (req : uploadRequest) (file : uploadedFile) (userId : string)
    (user : userDoc) (description : string) (w : world) :
  accepted req file userId ->
  users w !! userId = Some user ->
  insufficient_credits user = false ->
  openai_responses_create (image_url_of file) = inr description ->
  startsWith description refusal_prefix = false ->
  let finalPrompt := composePrompt description (up_style req) (up_prompt req) in
  exists later,
    trace (snd (run (upload_image req) w)) =
      (trace w ++
       [ FirestoreGet "users" userId;
         DiskWrite (tempFilePath_of w req file) (file_buffer file);
         OpenAIResponsesCreate (image_url_of file) ] ++
       (if MAX_PROMPT_LENGTH <? Z.of_nat (String.length finalPrompt)
        then [ ConsoleLog ("Prompt too long (" +:+ pretty (Z.of_nat (String.length finalPrompt))
                           +:+ " chars). Truncating to " +:+ pretty MAX_PROMPT_LENGTH
                           +:+ " chars.") ]
        else []) ++
       [ OpenAIImagesGenerate finalPrompt ] ++ later)%list
    /\ prompts_generated later = [].
Proof.
  intros H Hu Hcredits Hvision Hrefusal finalPrompt. subst finalPrompt.
  unfold insufficient_credits in Hcredits. unfold image_url_of in Hvision.
  enter_upload H. rewrite Hu, Hcredits, Hvision, Hrefusal.
  destruct (MAX_PROMPT_LENGTH <? _);
    simpl_world;
    (destruct (openai_images_generate _) as [openaiError | [[|c url]|]];
     cbn [of_field truthy String.eqb negb default from_option id];
     [ destruct (includes (message openaiError) "Invalid input image") | | | ]);
    simpl_world; rewrite ?Hu; simpl_world;
    repeat save_cases;
    eexists; (split; [rewrite <- ?app_assoc; cbn [app]; reflexivity | reflexivity]).
Qed.

(** C2, as the code has it.  A request that ends in the success response
    has appended exactly one image record (the prompt of the request, or
    the default prompt when the request has none, the enhanced prompt,
    the description, the style, the detail level, the original-upload URL
    and the result URL) and exactly one transaction, of type
    image-transformation and of -1 credit, that carries the id of that
    image record.  The balance of its user has become
    [credits + (-1)] as JavaScript computes it: one credit less for a
    balance that is a whole number of at most 2^53. *)
Theorem successful_transform_settles (req : uploadRequest) (r : response) (w w' : world) :
  run (upload_image req) w = (Responded r, w') ->
  status r = 200 ->
  exists userId user file description imageUrl,
    up_userId req = Some userId /\
    up_image req = Some file /\
    users w !! userId = Some user /\
    openai_responses_create (image_url_of file) = inr description /\
    openai_images_generate (composePrompt description (up_style req) (up_prompt req))
      = inr (Some imageUrl) /\
    let userPrompt :=
      match up_prompt req with
      | Some (String c p) => String c p
      | _ => "Transform this image into Studio Ghibli style"
      end in
    let image :=
      {| img_id := autoId (ids_drawn w);
         img_data :=
           {| img_userId := userId;
              img_prompt := userPrompt;
              img_enhancedPrompt := composePrompt description (up_style req) (up_prompt req);
              img_imageDescription := description;
              img_originalImageUrl := fileUrl_of w req file;
              img_style :=
                match up_style req with
                | Some (String c s) => String c s
                | _ => "ghibli-nature"
                end;
              img_detailLevel :=
                match up_detailLevel req with
                | Some (String c s) => JStr (String c s)
                | _ => JNum 50
                end;
              img_imageUrl := imageUrl |};
         img_createdAt := clock w |} in
    let transaction :=
      {| tx_id := autoId (S (ids_drawn w));
         tx_data :=
           {| tx_userId := userId;
              tx_orderId := None;
              tx_paymentId := None;
              tx_amount := None;
              tx_imageId := Some (img_id image);
              tx_credits := JNum (-1);
              tx_type := "image-transformation";
              tx_prompt := Some userPrompt |};
         tx_createdAt := clock w |} in
    users w' =
      alter (set_credits (js_add StringToNumber (u_credits user) (JNum (-1))) (clock w))
        userId (users w) /\
    (forall n, u_credits user = JNum n -> n <= 2 ^ 53 ->
               1 <= n /\ u_credits <$> users w' !! userId = Some (JNum (n - 1))) /\
    images w' = (images w ++ [image])%list /\
    transactions w' = (transactions w ++ [transaction])%list.
Proof.
  intros Hrun H200.
  unfold upload_image, uploadMiddleware, upload_image_handler in Hrun.
  run_monad_in Hrun.
  destruct (up_image req) as [file|] eqn:Himg.
  2:{ destruct (up_userId req) as [[|c u]|];
        cbn [of_field truthy String.eqb negb] in Hrun; not_success Hrun H200. }
  destruct (fileFilter file); cbn [negb] in Hrun; [| not_success Hrun H200].
  destruct (fileSizeLimit <? Z.of_nat (length (file_buffer file))); [not_success Hrun H200 |].
  destruct (up_userId req) as [[|c u]|] eqn:Huid;
    cbn [of_field truthy String.eqb negb default from_option id] in Hrun;
    try not_success Hrun H200.
  set (userId := String c u) in *.
  destruct (length (file_buffer file) =? 0)%nat; [not_success Hrun H200 |].
  simpl_world_in Hrun.
  destruct (users w !! userId) as [user|] eqn:Hu; [| not_success Hrun H200].
  destruct (negb (truthy (u_credits user)) || js_lt StringToNumber (u_credits user) (JNum 1))
    eqn:Hcredits; [not_success Hrun H200 |].
  destruct (openai_responses_create _) as [e | description] eqn:Hvision;
    [not_success Hrun H200 |].
  destruct (startsWith description refusal_prefix); [not_success Hrun H200 |].
  assert (Htruthy : truthy (u_credits user) = true).
  { destruct (truthy (u_credits user)); [reflexivity | discriminate Hcredits]. }
  assert (Hor : js_or (u_credits user) (JNum 0) = u_credits user).
  { unfold js_or. now rewrite Htruthy. }
  assert (Hone : forall n, u_credits user = JNum n -> 1 <= n).
  { intros n Hn. rewrite Hn in Hcredits. revert Hcredits. unfold js_lt.
    cbn [truthy negb js_toPrimitive js_toNumber lt_numbers]. lia. }
  destruct (MAX_PROMPT_LENGTH <? _);
    simpl_world_in Hrun;
    (destruct (openai_images_generate _) as [e | [[|c' url]|]] eqn:Hgen;
     cbn [of_field truthy String.eqb negb default from_option id] in Hrun;
     [ destruct (includes (message e) "Invalid input image"); not_success Hrun H200
     | not_success Hrun H200
     |
     | not_success Hrun H200 ]);
    simpl_world_in Hrun; rewrite Hu, Hor in Hrun; simpl_world_in Hrun;
    (save_cases_in Hrun; [discriminate Hrun | discriminate Hrun |]);
    (save_cases_in Hrun; [discriminate Hrun | discriminate Hrun |]);
    injection Hrun as <- <-;
    exists userId, user, file, description, (String c' url);
    (do 5 (split; [reflexivity || assumption |]));
    cbv zeta; simpl_world;
    (split; [reflexivity |]);
    (split;
     [ intros n Hn Hmax; split; [now apply Hone |];
       rewrite lookup_alter_eq, Hu, Hn;
       cbn [fmap option_fmap option_map set_credits u_credits];
       rewrite js_add_whole by (specialize (Hone n Hn); lia);
       reflexivity
     | unfold userPrompt_of, fileUrl_of, fileName_of;
       destruct (up_prompt req) as [[|? ?]|], (up_style req) as [[|? ?]|],
                (up_detailLevel req) as [[|? ?]|];
       split; reflexivity ]).
Qed.

(** ** POST /api/verify-payment *)

(** The record of a new user holds no [undefined]. *)
Lemma undefined_in_new_user (t : Z) :
  undefined_in_user {| f_credits := Some (JNum 0); f_createdAt := Some t; f_other := ∅ |} = None.
Proof. reflexivity. Qed.





(** ** The style guide *)

Lemma styleGuide_proto : styleGuide_get (JStr "__proto__") = JObjectProto.
Proof. vm_compute. reflexivity. Qed.

Lemma styleGuide_nature :
  exists rest, styleGuide_get (JStr "ghibli-nature") = JStr (String "C" rest).
Proof. eexists. vm_compute. reflexivity. Qed.

Lemma append_head_differs (c1 c2 : ascii) (a b r1 r2 : string) :
  c1 <> c2 -> String c1 a +:+ r1 <> String c2 b +:+ r2.
Proof. intros Hc. rewrite !append_cons. congruence. Qed.

(** C8, where it fails.  [__proto__] is none of the four style keys, yet
    a request that names it as its style does not get the prompt of the
    default style: the property read reaches [Object.prototype] and the
    fallback of [||] is not taken. *)
Theorem inherited_style_key_escapes_fallback (description : string) (prompt : option string) :
  styleGuide !! "__proto__" = None
  /\ String.eqb (composePrompt description (Some "__proto__") prompt)
                (composePrompt description (Some "ghibli-nature") prompt) = false.
Proof.
  split; [vm_compute; reflexivity |].
  apply String.eqb_neq. unfold composePrompt. cbn [of_field].
  destruct styleGuide_nature as [rest ->]. rewrite styleGuide_proto.
  unfold js_or. cbn [truthy String.eqb negb js_toString].
  set (shown := if negb (String.eqb description "") then _ else _).
  assert (Hcore : forall tail,
             (shown +:+ "[object Object]" +:+ ". ") +:+ tail <>
             (shown +:+ String "C" rest +:+ ". ") +:+ tail).
  { intros tail Heq. rewrite !append_assoc in Heq. apply append_cancel_l in Heq.
    revert Heq. apply append_head_differs. discriminate. }
  destruct prompt as [p|].
  - destruct (negb (String.eqb p "") && negb (String.eqb (js_trim p) "")).
    + apply Hcore.
    + intros Heq. apply (Hcore ""). now rewrite !append_empty_r.
  - intros Heq. apply (Hcore ""). now rewrite !append_empty_r.
Qed.

(** A style key that is neither an own property of the style guide nor a
    name that [Object.prototype] answers does fall back to the default
    style, and so does a request without a style. *)
Lemma unknown_style_falls_back (description : string) (style prompt : option string) :
  styleGuide !! js_toString (of_field style) = None ->
  Object_prototype_get (js_toString (of_field style)) = JUndefined ->
  composePrompt description style prompt
    = composePrompt description (Some "ghibli-nature") prompt.
Proof.
  intros Hown Hproto. unfold composePrompt.
  replace (styleGuide_get (of_field style)) with JUndefined
    by (unfold styleGuide_get; now rewrite Hown, Hproto).
  destruct styleGuide_nature as [rest Hn]. cbn [of_field]. rewrite Hn.
  reflexivity.
Qed.
(** ** The intake filter and the normalisation *)

(** The file filter accepts exactly the names that end in one of the
    three extensions, in lower case. *)
Theorem fileFilter_accepts_iff (file : uploadedFile) :
  fileFilter file = true <->
  exists stem, originalname file = stem +:+ ".jpg"
            \/ originalname file = stem +:+ ".jpeg"
            \/ originalname file = stem +:+ ".png".
Proof.
  unfold fileFilter. rewrite !orb_true_iff, !endsWith_iff. split.
  - intros [[[p Hp] | [p Hp]] | [p Hp]]; exists p; tauto.
  - intros [p [Hp | [Hp | Hp]]]; [left; left | left; right | right]; now exists p.
Qed.

(** Normalisation is best effort: when the first [sharp] pass fails, or
    the metadata of its result cannot be read, a buffer that is not above
    the 3.9 MiB threshold goes on to the vision model as it was
    uploaded. *)
Theorem processImage_falls_back (original : buffer) :
  sharp_normalize original = None
  \/ (exists b, sharp_normalize original = Some b /\ sharp_metadata b = false) ->
  10 * Z.of_nat (length original) <= 39 * (1024 * 1024) ->
  processImage original = original.
Proof.
  intros Hfail Hsmall. unfold processImage.
  assert (Hfirst : match sharp_normalize original with
                   | Some b => if sharp_metadata b then b else original
                   | None => original
                   end = original).
  { destruct Hfail as [-> | (b & -> & ->)]; reflexivity. }
  rewrite Hfirst. now rewrite (proj2 (Z.ltb_ge _ _) Hsmall).
Qed.


(* ===================================================================== *)
(** ** The store: lookups, upserts, adjustments and queries               *)
(* ===================================================================== *)

(** Adjusting the credits of a user who has no record throws, and
    nothing is written: the world only gains the read. *)
Theorem updateUserCredits_unknown_user (userId : string) (credits : jsval) (w : world) :
  users w !! userId = None ->
  updateUserCredits StringToNumber userId credits w =
    (Thrown {| message := "User with ID " +:+ userId +:+ " not found"; err_status := None |},
     with_trace (FirestoreGet "users" userId) w).
Proof.
  intros Hu. run_monad. simpl_world. rewrite Hu. reflexivity.
Qed.

(** Two adjustments of a whole balance, one after the other, add up as
    long as the sums stay within 2^53: the second answers the balance
    plus both deltas, and that is the balance on record afterwards. *)
Theorem updateUserCredits_adds_up
    (userId : string) (user : userDoc) (n a b : Z) (w : world) :
  users w !! userId = Some user ->
  u_credits user = JNum n ->
  Z.abs (n + a) <= 2 ^ 53 ->
  Z.abs (n + a + b) <= 2 ^ 53 ->
  fst (updateUserCredits StringToNumber userId (JNum b)
         (snd (updateUserCredits StringToNumber userId (JNum a) w)))
    = Val (JNum (n + a + b))
  /\ u_credits <$>
       users (snd (updateUserCredits StringToNumber userId (JNum b)
                     (snd (updateUserCredits StringToNumber userId (JNum a) w)))) !! userId
     = Some (JNum (n + a + b)).
Proof.
  intros Hu Hn Ha Hb. run_monad. simpl_world. rewrite Hu. simpl_world.
  rewrite lookup_alter_eq, Hu. cbn [fmap option_fmap option_map].
  simpl_world. cbn [set_credits u_credits].
  rewrite Hn, (js_add_balance _ _ Ha), (js_add_balance _ _ Hb).
  split; [reflexivity |].
  rewrite !lookup_alter_eq, Hu. reflexivity.
Qed.

(** An adjustment touches the credits and the update time of one user:
    the other fields of that record, every other user, the images and
    the transactions stay as they were. *)
Theorem updateUserCredits_frame
    (userId : string) (user : userDoc) (credits : jsval) (w : world) :
  users w !! userId = Some user ->
  (exists user',
     users (snd (updateUserCredits StringToNumber userId credits w)) !! userId = Some user'
     /\ u_createdAt user' = u_createdAt user
     /\ u_other user' = u_other user
     /\ u_updatedAt user' = Some (clock w))
  /\ (forall other, other <> userId ->
        users (snd (updateUserCredits StringToNumber userId credits w)) !! other
        = users w !! other)
  /\ images (snd (updateUserCredits StringToNumber userId credits w)) = images w
  /\ transactions (snd (updateUserCredits StringToNumber userId credits w)) = transactions w.
Proof.
  intros Hu. run_monad. simpl_world. rewrite Hu. simpl_world. repeat split.
  - eexists. rewrite lookup_alter_eq, Hu. cbn [fmap option_fmap option_map].
    repeat split; reflexivity.
  - intros other Hother. now rewrite lookup_alter_ne.
Qed.


(** *** Newest first *)

Section NewestFirstFacts.

Context {A : Type} (createdAt : A -> Z) (docId : A -> string).

Lemma insert_newest_Permutation (x : A) (l : list A) :
  Permutation (insert_newest createdAt docId x l) (x :: l).
Proof.
  induction l as [|y l IH]; cbn [insert_newest]; [reflexivity |].
  destruct (comes_before createdAt docId x y); [reflexivity |].
  rewrite IH. apply perm_swap.
Qed.

Lemma newest_first_Permutation (l : list A) :
  Permutation (newest_first createdAt docId l) l.
Proof.
  induction l as [|x l IH]; cbn [newest_first fold_right]; [reflexivity |].
  rewrite insert_newest_Permutation. now apply perm_skip.
Qed.

Lemma comes_before_newer (a b : A) :
  comes_before createdAt docId a b = true -> createdAt b <= createdAt a.
Proof. unfold comes_before. lia. Qed.

Lemma comes_after_older (a b : A) :
  comes_before createdAt docId a b = false -> createdAt a <= createdAt b.
Proof. unfold comes_before. lia. Qed.

Lemma insert_newest_sorted (x : A) (l : list A) :
  StronglySorted (fun a b => createdAt b <= createdAt a) l ->
  StronglySorted (fun a b => createdAt b <= createdAt a) (insert_newest createdAt docId x l).
Proof.
  induction 1 as [|y l Hl IH Hy]; cbn [insert_newest].
  - repeat constructor.
  - destruct (comes_before createdAt docId x y) eqn:Hxy.
    + apply comes_before_newer in Hxy. constructor; [now constructor |].
      constructor; [exact Hxy |].
      rewrite List.Forall_forall in Hy |- *. intros z Hz. specialize (Hy z Hz). lia.
    + apply comes_after_older in Hxy. constructor; [exact IH |].
      rewrite List.Forall_forall in Hy |- *. intros z Hz.
      apply (Permutation_in _ (insert_newest_Permutation x l)) in Hz.
      destruct Hz as [<- | Hz]; [exact Hxy | now apply Hy].
Qed.

Lemma newest_first_sorted (l : list A) :
  StronglySorted (fun a b => createdAt b <= createdAt a) (newest_first createdAt docId l).
Proof.
  induction l as [|x l IH]; cbn [newest_first fold_right]; [constructor |].
  now apply insert_newest_sorted.
Qed.

End NewestFirstFacts.

Lemma filter_snoc {A} (f : A -> bool) (l : list A) (x : A) :
  List.filter f (l ++ [x]) = (List.filter f l ++ if f x then [x] else [])%list.
Proof.
  rewrite List.filter_app. cbn [List.filter]. now destruct (f x).
Qed.

(** The listing of a user's transactions holds exactly the transactions
    of that user, each once, the newest first; it reads and writes
    nothing else. *)
Theorem getUserTransactions_lists_newest_first (userId : string) (w : world) :
  exists listing,
    getUserTransactions userId w
      = (Val listing, with_trace (FirestoreGet "transactions" userId) w)
    /\ (forall d, In d listing <->
                  In d (transactions w) /\ tx_userId (tx_data d) = userId)
    /\ length listing
       = length (List.filter (fun d => String.eqb (tx_userId (tx_data d)) userId)
                   (transactions w))
    /\ StronglySorted (fun a b => tx_createdAt b <= tx_createdAt a) listing.
Proof.
  eexists. split; [reflexivity |].
  pose proof (newest_first_Permutation tx_createdAt tx_id
                (List.filter (fun d => String.eqb (tx_userId (tx_data d)) userId)
                   (transactions w))) as Hperm.
  split; [| split].
  - intros d. split.
    + intros Hd. apply (Permutation_in _ Hperm), List.filter_In in Hd.
      split; [tauto | now apply String.eqb_eq].
    + intros [Hd Hu]. apply (Permutation_in _ (Permutation_sym Hperm)), List.filter_In.
      split; [exact Hd | now apply String.eqb_eq].
  - now apply Permutation_length.
  - apply newest_first_sorted.
Qed.

(** The same for the listing of a user's images. *)
Theorem getUserImages_lists_newest_first (userId : string) (w : world) :
  exists listing,
    getUserImages userId w = (Val listing, with_trace (FirestoreGet "images" userId) w)
    /\ (forall d, In d listing <->
                  In d (images w) /\ img_userId (img_data d) = userId)
    /\ length listing
       = length (List.filter (fun d => String.eqb (img_userId (img_data d)) userId)
                   (images w))
    /\ StronglySorted (fun a b => img_createdAt b <= img_createdAt a) listing.
Proof.
  eexists. split; [reflexivity |].
  pose proof (newest_first_Permutation img_createdAt img_id
                (List.filter (fun d => String.eqb (img_userId (img_data d)) userId)
                   (images w))) as Hperm.
  split; [| split].
  - intros d. split.
    + intros Hd. apply (Permutation_in _ Hperm), List.filter_In in Hd.
      split; [tauto | now apply String.eqb_eq].
    + intros [Hd Hu]. apply (Permutation_in _ (Permutation_sym Hperm)), List.filter_In.
      split; [exact Hd | now apply String.eqb_eq].
  - now apply Permutation_length.
  - apply newest_first_sorted.
Qed.

(** A transaction that was saved (it holds no [undefined], and Firestore
    accepted it) is listed for its user from then on,
    beside everything that was listed before; the listings of the other
    users do not change. *)
Theorem saved_transaction_is_listed (data : transactionData) (w : world) :
  undefined_in_transaction data = None ->
  transactions_addDoc_rejects data w = None ->
  exists saved,
    fst (saveTransaction autoId data w) = Val saved
    /\ tx_data saved = data
    /\ Permutation
         (newest_first tx_createdAt tx_id
            (List.filter (fun d => String.eqb (tx_userId (tx_data d)) (tx_userId data))
               (transactions (snd (saveTransaction autoId data w)))))
         (saved ::
          newest_first tx_createdAt tx_id
            (List.filter (fun d => String.eqb (tx_userId (tx_data d)) (tx_userId data))
               (transactions w)))
    /\ (forall other, other <> tx_userId data ->
          fst (getUserTransactions other (snd (saveTransaction autoId data w)))
          = fst (getUserTransactions other w)).
Proof.
  intros Hdefined Haccepted. run_monad.
  rewrite (addDoc_transaction_accepted _ _ Hdefined Haccepted). cbv beta iota zeta.
  eexists. split; [reflexivity |]. split; [reflexivity |].
  simpl_world. split.
  - rewrite filter_snoc. cbn [tx_userId tx_data]. rewrite String.eqb_refl.
    rewrite !newest_first_Permutation. rewrite Permutation_app_comm. reflexivity.
  - intros other Hother. unfold getUserTransactions. run_monad. simpl_world.
    rewrite filter_snoc. cbn [tx_userId tx_data].
    apply String.eqb_neq in Hother. rewrite String.eqb_sym in Hother. rewrite Hother.
    now rewrite app_nil_r.
Qed.

(** The same for an image that was saved. *)
Theorem saved_image_is_listed (data : imageData) (w : world) :
  undefined_in_image data = None ->
  images_addDoc_rejects data w = None ->
  exists saved,
    fst (saveGeneratedImage autoId data w) = Val saved
    /\ img_data saved = data
    /\ Permutation
         (newest_first img_createdAt img_id
            (List.filter (fun d => String.eqb (img_userId (img_data d)) (img_userId data))
               (images (snd (saveGeneratedImage autoId data w)))))
         (saved ::
          newest_first img_createdAt img_id
            (List.filter (fun d => String.eqb (img_userId (img_data d)) (img_userId data))
               (images w)))
    /\ (forall other, other <> img_userId data ->
          fst (getUserImages other (snd (saveGeneratedImage autoId data w)))
          = fst (getUserImages other w)).
Proof.
  intros Hdefined Haccepted. run_monad.
  rewrite (addDoc_image_accepted _ _ Hdefined Haccepted). cbv beta iota zeta.
  eexists. split; [reflexivity |]. split; [reflexivity |].
  simpl_world. split.
  - rewrite filter_snoc. cbn [img_userId img_data]. rewrite String.eqb_refl.
    rewrite !newest_first_Permutation. rewrite Permutation_app_comm. reflexivity.
  - intros other Hother. unfold getUserImages. run_monad. simpl_world.
    rewrite filter_snoc. cbn [img_userId img_data].
    apply String.eqb_neq in Hother. rewrite String.eqb_sym in Hother. rewrite Hother.
    now rewrite app_nil_r.
Qed.

(* ===================================================================== *)
(** ** The handlers: what they change, and what they never do             *)
(* ===================================================================== *)

Lemma ledger_sum_snoc (userId : string) (txs : list transactionDoc) (t : transactionDoc) :
  ledger_sum userId (txs ++ [t])
  = ledger_sum userId txs
    + (if String.eqb (tx_userId (tx_data t)) userId then default 0 (whole_delta t) else 0).
Proof.
  induction txs as [|x txs IH]; cbn [ledger_sum fold_right app].
  - destruct (String.eqb _ _); lia.
  - fold (ledger_sum userId (txs ++ [t])). fold (ledger_sum userId txs).
    rewrite IH. destruct (String.eqb (tx_userId (tx_data x)) userId); lia.
Qed.

Ltac enter_described H :=
  let Hacc := fresh "Hacc" in let Hu := fresh "Hu" in
  let Hcredits := fresh "Hcredits" in let Hvision := fresh "Hvision" in
  let Hrefusal := fresh "Hrefusal" in
  destruct H as (Hacc & Hu & Hcredits & Hvision & Hrefusal);
  unfold insufficient_credits in Hcredits; unfold image_url_of in Hvision;
  unfold same_collections;
  enter_upload Hacc; rewrite Hu, Hcredits, Hvision, Hrefusal.

(** When the image model rejects the generation call, the request is
    answered with a 400 if the message speaks of an invalid input image
    and with a 500 otherwise; the cleanup is armed, no credit is deducted
    and nothing is recorded. *)
Theorem generation_failure_answered
    (req : uploadRequest) (file : uploadedFile) (userId : string)
    (user : userDoc) (description : string) (e : jserror) (w : world) :
  described req file userId user description w ->
  openai_images_generate (composePrompt description (up_style req) (up_prompt req)) = inl e ->
  fst (run (upload_image req) w) =
    Responded
      (if includes (message e) "Invalid input image"
       then {| status := 400;
               body := [ ("error", JStr "The image format is not compatible with our AI system. Please try a different image.");
                         ("details", JStr (message e)) ] |}
       else {| status := 500;
               body := ([ ("error", JStr "Error generating image with AI. Please try again or use a different image.") ]
                        ++ details_if development (message e))%list |})
  /\ same_collections w (snd (run (upload_image req) w))
  /\ In (CleanupScheduled (tempFilePath_of w req file))
        (trace (snd (run (upload_image req) w))).
Proof.
  intros H Hgen. enter_described H.
  destruct (MAX_PROMPT_LENGTH <? _); simpl_world; rewrite Hgen;
    destruct (includes (message e) "Invalid input image"); simpl_world;
    (split; [reflexivity |]); (split; [repeat split; reflexivity |]);
    apply in_or_app; right; left; reflexivity.
Qed.

(** A response of the image model without a URL, or with an empty one,
    is answered with a 500; no credit is deducted and nothing is
    recorded. *)
Theorem missing_url_answered
    (req : uploadRequest) (file : uploadedFile) (userId : string)
    (user : userDoc) (description : string) (w : world) :
  described req file userId user description w ->
  openai_images_generate (composePrompt description (up_style req) (up_prompt req)) = inr None
  \/ openai_images_generate (composePrompt description (up_style req) (up_prompt req))
     = inr (Some "") ->
  fst (run (upload_image req) w) =
    Responded
      {| status := 500;
         body := ([ ("error", JStr "Failed to generate image. The AI service returned an invalid response.") ]
                  ++ details_if development "Missing image URL in response")%list |}
  /\ same_collections w (snd (run (upload_image req) w)).
Proof.
  intros H Hgen. enter_described H.
  destruct (MAX_PROMPT_LENGTH <? _); simpl_world;
    destruct Hgen as [-> | ->]; simpl_world;
    (split; [reflexivity | repeat split; reflexivity]).
Qed.

(** Whatever the request, an upload either leaves the three collections
    as they were, or has deducted a credit from the user it names; in
    the latter case it has then appended nothing and stays unanswered, or
    has appended the image alone and stays unanswered, or has appended
    the image and the transaction and answers with the success
    response. *)
Lemma upload_image_effect (req : uploadRequest) (w : world) :
  (same_collections w (snd (run (upload_image req) w))
   /\ match fst (run (upload_image req) w) with
      | Responded r => status r <> 200
      | _ => True
      end)
  \/ (exists userId user,
        up_userId req = Some userId
        /\ users w !! userId = Some user
        /\ insufficient_credits user = false
        /\ users (snd (run (upload_image req) w))
           = alter (set_credits (js_add StringToNumber (js_or (u_credits user) (JNum 0))
                                   (JNum (-1))) (clock w))
               userId (users w)
        /\ ((exists e,
               fst (run (upload_image req) w) = Unhandled e
               /\ images (snd (run (upload_image req) w)) = images w
               /\ transactions (snd (run (upload_image req) w)) = transactions w)
            \/ (exists e image,
                  fst (run (upload_image req) w) = Unhandled e
                  /\ images (snd (run (upload_image req) w)) = (images w ++ [image])%list
                  /\ transactions (snd (run (upload_image req) w)) = transactions w)
            \/ (exists r image transaction,
                  fst (run (upload_image req) w) = Responded r /\ status r = 200
                  /\ images (snd (run (upload_image req) w)) = (images w ++ [image])%list
                  /\ transactions (snd (run (upload_image req) w))
                     = (transactions w ++ [transaction])%list
                  /\ tx_userId (tx_data transaction) = userId
                  /\ tx_credits (tx_data transaction) = JNum (-1)))).
Proof.
  unfold same_collections, upload_image, uploadMiddleware, upload_image_handler.
  run_monad.
  destruct (up_image req) as [file|] eqn:Himg.
  2:{ left. destruct (up_userId req) as [[|c u]|];
        cbn [of_field truthy String.eqb negb]; simpl_world;
        (split; [repeat split; reflexivity | discriminate]). }
  destruct (fileFilter file); cbn [negb];
    [| left; simpl_world; split; [repeat split; reflexivity | discriminate]].
  destruct (fileSizeLimit <? Z.of_nat (length (file_buffer file)));
    [left; simpl_world; split; [repeat split; reflexivity | discriminate] |].
  destruct (up_userId req) as [[|c u]|] eqn:Huid;
    cbn [of_field truthy String.eqb negb default from_option id];
    try (left; simpl_world; split; [repeat split; reflexivity | discriminate]).
  set (userId := String c u) in *.
  destruct (length (file_buffer file) =? 0)%nat;
    [left; simpl_world; split; [repeat split; reflexivity | discriminate] |].
  simpl_world.
  destruct (users w !! userId) as [user|] eqn:Hu;
    [| left; simpl_world; split; [repeat split; reflexivity | discriminate]].
  destruct (negb (truthy (u_credits user)) || js_lt StringToNumber (u_credits user) (JNum 1))
    eqn:Hcredits;
    [left; simpl_world; split; [repeat split; reflexivity | discriminate] |].
  destruct (openai_responses_create _) as [e | description];
    [left; simpl_world; split; [repeat split; reflexivity | exact I] |].
  destruct (startsWith description refusal_prefix);
    [left; simpl_world; split; [repeat split; reflexivity | discriminate] |].
  destruct (MAX_PROMPT_LENGTH <? _); simpl_world;
    (destruct (openai_images_generate _) as [e | [[|c' url]|]];
     cbn [of_field truthy String.eqb negb default from_option id];
     [ destruct (includes (message e) "Invalid input image");
       left; simpl_world; split; [repeat split; reflexivity | discriminate
                                 | repeat split; reflexivity | discriminate]
     | left; simpl_world; split; [repeat split; reflexivity | discriminate]
     |
     | left; simpl_world; split; [repeat split; reflexivity | discriminate] ]);
    right; simpl_world; rewrite Hu; simpl_world;
    exists userId, user;
    (do 3 (split; [reflexivity || assumption |]));
    (save_cases;
     [ split; [reflexivity |]; left; eexists; repeat split; reflexivity
     | split; [reflexivity |]; left; eexists; repeat split; reflexivity
     | ]);
    (save_cases;
     [ split; [reflexivity |]; right; left; do 2 eexists; repeat split; reflexivity
     | split; [reflexivity |]; right; left; do 2 eexists; repeat split; reflexivity
     | split; [reflexivity |]; right; right; do 3 eexists; repeat split; reflexivity ]).
Qed.

(** An upload that is answered with anything but the success response has
    deducted no credit and recorded nothing. *)
Theorem upload_error_response_changes_nothing
    (req : uploadRequest) (r : response) (w : world) :
  fst (run (upload_image req) w) = Responded r ->
  status r <> 200 ->
  same_collections w (snd (run (upload_image req) w)).
Proof.
  intros Hr Hstatus.
  destruct (upload_image_effect req w)
    as [[Hsame _]
       | (userId & user & _ & _ & _ & _
          & [(e & He & _) | [(e & image & He & _) | (r' & image & tx & Hr' & H200 & _)]])].
  - exact Hsame.
  - congruence.
  - congruence.
  - congruence.
Qed.

(** An upload only ever appends: the images and the transactions that
    were there stay where they were, unaltered; at most one image is
    added, and a transaction only beside an image; no user other than
    the one the request names is touched. *)
Theorem upload_image_only_appends (req : uploadRequest) (w : world) :
  exists new_images new_transactions,
    images (snd (run (upload_image req) w)) = (images w ++ new_images)%list
    /\ transactions (snd (run (upload_image req) w))
       = (transactions w ++ new_transactions)%list
    /\ (length new_transactions <= length new_images <= 1)%nat
    /\ (forall other, up_userId req <> Some other ->
          users (snd (run (upload_image req) w)) !! other = users w !! other).
Proof.
  destruct (upload_image_effect req w)
    as [[(Hu & Hi & Ht) _]
       | (userId & user & Huid & _ & _ & Hu
          & [(e & _ & Hi & Ht)
            | [(e & image & _ & Hi & Ht) | (r & image & tx & _ & _ & Hi & Ht & _)]])].
  - exists [], []. rewrite Hu, Hi, Ht, !app_nil_r. repeat split; auto.
  - exists [], []. rewrite Hu, Hi, Ht, !app_nil_r. repeat split; auto.
    intros other Hother. apply lookup_alter_ne. congruence.
  - exists [image], []. rewrite Hu, Hi, Ht, !app_nil_r. repeat split; cbn; auto.
    intros other Hother. apply lookup_alter_ne. congruence.
  - exists [image], [tx]. rewrite Hu, Hi, Ht. repeat split; auto.
    intros other Hother. apply lookup_alter_ne. congruence.
Qed.

(** A whole balance that passes the entitlement check is at least 1. *)
Lemma entitled_whole_balance (user : userDoc) (n : Z) :
  u_credits user = JNum n -> insufficient_credits user = false -> 1 <= n.
Proof.
  intros Hn. unfold insufficient_credits, js_lt. rewrite Hn.
  cbn [truthy negb js_toPrimitive js_toNumber lt_numbers]. lia.
Qed.

(** Requests being handled one at a time: if the ledger is consistent
    (every delta a whole number, every balance the sum of the deltas of
    its user), it still is after an upload that was answered, whatever
    the answer. *)
Theorem upload_image_keeps_ledger (req : uploadRequest) (r : response) (w : world) :
  ledger_consistent w ->
  fst (run (upload_image req) w) = Responded r ->
  ledger_consistent (snd (run (upload_image req) w)).
Proof.
  intros [Hwhole Hledger] Hr. unfold ledger_consistent, balance_on_record in *.
  destruct (upload_image_effect req w)
    as [[(Hu & Hi & Ht) _]
       | (userId & user & _ & Huser & Hentitled & Hu
          & [(e & He & _)
            | [(e & image & He & _)
              | (r' & image & tx & _ & _ & _ & Ht & Htu & Htc)]])];
    try congruence.
  - rewrite Hu, Ht. split; [exact Hwhole | exact Hledger].
  - rewrite Hu, Ht. split.
    + apply Forall_app. split; [exact Hwhole |].
      constructor; [| constructor]. unfold whole_delta. now rewrite Htc.
    + assert (Hdelta : whole_delta tx = Some (-1)).
      { unfold whole_delta. now rewrite Htc. }
      intros other. rewrite ledger_sum_snoc, Htu, Hdelta.
      cbn [default from_option id].
      destruct (Hledger other) as [Hother Hbound].
      destruct (String.eqb_spec userId other) as [<- | Hne].
      * rewrite lookup_alter_eq, Huser. rewrite Huser in Hother.
        cbn [fmap option_fmap option_map set_credits u_credits].
        destruct (u_credits user) as [| | | n | | | | | |] eqn:Hn; try discriminate.
        injection Hother as Hsum.
        pose proof (entitled_whole_balance user n Hn Hentitled) as Hone.
        rewrite js_add_balance by lia. split; [f_equal; lia | lia].
      * rewrite lookup_alter_ne by exact Hne. rewrite Z.add_0_r. now split.
Qed.


(** ** POST /api/verify-payment: a replay, the ledger, a missing field *)


(** A consistent ledger stays consistent when one user is credited a
    whole number and the transaction that says so is appended. *)
Lemma ledger_after_credit (w w' : world) (userId : string) (p : transactionDoc) (c : Z) :
  ledger_consistent w ->
  transactions w' = (transactions w ++ [p])%list ->
  tx_userId (tx_data p) = userId ->
  whole_delta p = Some c ->
  u_credits <$> users w' !! userId = Some (JNum (ledger_sum userId (transactions w) + c)) ->
  (forall other, other <> userId -> users w' !! other = users w !! other) ->
  Z.abs (ledger_sum userId (transactions w) + c) <= 2 ^ 53 ->
  ledger_consistent w'.
Proof.
  intros [Hwhole Hledger] Ht Htu Hdelta Hnew Hframe Hbound.
  unfold ledger_consistent, balance_on_record in *. rewrite Ht. split.
  - apply Forall_app. split; [exact Hwhole |].
    constructor; [| constructor]. now rewrite Hdelta.
  - intros other. rewrite ledger_sum_snoc, Htu, Hdelta. cbn [default from_option id].
    destruct (String.eqb_spec userId other) as [<- | Hne].
    + destruct (users w' !! userId) as [user'|]; [| discriminate Hnew].
      cbn [fmap option_fmap option_map] in Hnew. injection Hnew as ->. now split.
    + rewrite Hframe by congruence. rewrite Z.add_0_r. apply Hledger.
Qed.

(** Requests being handled one at a time: if the ledger is consistent,
    it still is after a payment verification that credits a whole
    number, within 2^53, and that is answered with the success response
    or with a 400.  (A 500 may stand for a credit that was added without
    its purchase record.) *)
Theorem verify_payment_keeps_ledger
    (b : verifyBody) (credits : Z) (r : response) (w : world) :
  ledger_consistent w ->
  vb_credits b = JNum credits ->
  (forall userId, vb_userId b = JStr userId ->
     Z.abs (ledger_sum userId (transactions w) + credits) <= 2 ^ 53) ->
  fst (run (verify_payment b) w) = Responded r ->
  status r <> 500 ->
  ledger_consistent (snd (run (verify_payment b) w)).
Proof.
  intros Hledger Hcredits Hbound Hr H500. revert Hr.
  assert (Hno500 : forall body0,
             Responded {| status := 500; body := body0 |} = Responded r -> False).
  { intros body0 [= <-]. now apply H500. }
  unfold verify_payment. rewrite Hcredits. run_monad.
  destruct (truthy (vb_userId b)); cbn [negb]; [| intros _; exact Hledger].
  destruct (strict_equals_string _ _); [| intros _; exact Hledger].
  destruct (vb_userId b) as [| | | | | | userId | | |] eqn:Huid; cbn [doc_users];
    run_monad; simpl_world; try (intros Hr; now apply Hno500 in Hr).
  specialize (Hbound userId eq_refl).
  pose proof (proj2 Hledger userId) as [Hbalance _]. unfold balance_on_record in Hbalance.
  destruct (users w !! userId) as [user|] eqn:Hu; simpl_world.
  - destruct (u_credits user) as [| | | n | | | | | |] eqn:Hn; try discriminate Hbalance.
    injection Hbalance as ->.
    rewrite Hu. simpl_world. rewrite Hn, (js_add_balance _ _ Hbound).
    save_cases; try (intros Hr; now apply Hno500 in Hr).
    intros _.
    eapply (ledger_after_credit w _ userId _ credits Hledger);
      [reflexivity | reflexivity | reflexivity | | | exact Hbound]; simpl_world.
    + now rewrite lookup_alter_eq, Hu.
    + intros other Hother. now rewrite lookup_alter_ne.
  - injection Hbalance as Hzero.
    rewrite undefined_in_new_user. cbv beta iota zeta. simpl_world.
    rewrite Hu. simpl_world. rewrite lookup_insert_eq. simpl_world.
    cbn [u_credits f_credits f_other].
    assert (Hsum : js_add StringToNumber (js_or (JNum 0) (JNum 0)) (JNum credits)
                   = JNum (ledger_sum userId (transactions w) + credits)).
    { rewrite <- Hzero. reflexivity. }
    rewrite Hsum.
    save_cases; try (intros Hr; now apply Hno500 in Hr).
    intros _.
    eapply (ledger_after_credit w _ userId _ credits Hledger);
      [reflexivity | reflexivity | reflexivity | | | exact Hbound]; simpl_world.
    + now rewrite lookup_alter_eq, lookup_insert_eq.
    + intros other Hother. rewrite lookup_alter_ne, lookup_insert_ne by congruence.
      reflexivity.
Qed.


(** ** POST /api/create-order, whatever the body *)

(** A create-order request reads and writes nothing of the store: all it
    does is the one call to the payment provider.  The order the
    provider answers is relayed with the public key; a failure of the
    provider is answered with a 500 that carries its message. *)
Theorem create_order_relays_provider (b : createOrderBody) (w : world) :
  let options :=
    {| amount := js_mul StringToNumber (co_price b) (JNum 100);
       currency := "INR";
       receipt := "receipt_order_" +:+ pretty (clock w);
       notes_userId := co_userId b;
       notes_credits := co_credits b |} in
  snd (run (create_order b) w) = with_trace (RazorpayOrdersCreate options) w
  /\ same_collections w (snd (run (create_order b) w))
  /\ fst (run (create_order b) w)
     = match razorpay_orders_create options with
       | inr order =>
           Responded {| status := 200;
                        body := [ ("id", order_id order); ("amount", order_amount order);
                                  ("currency", order_currency order);
                                  ("key", JStr RAZORPAY_KEY_ID) ] |}
       | inl error =>
           Responded {| status := 500; body := [ ("error", JStr (message error)) ] |}
       end.
Proof.
  intros options. unfold create_order, same_collections. run_monad. fold options.
  destruct (razorpay_orders_create options); repeat split; reflexivity.
Qed.

(** ** The prompt *)

Lemma trimStart_blank (s : string) :
  Forall (fun c => is_space c = true) (list_ascii_of_string s) -> trimStart s = "".
Proof.
  induction s as [|c s IH]; cbn [list_ascii_of_string trimStart]; [reflexivity |].
  intros H. inversion H as [|? ? Hc Hs]; subst. rewrite Hc. now apply IH.
Qed.

(** A prompt made of white space only counts as no prompt: the composed
    prompt is the one of a request without a prompt. *)
Theorem blank_prompt_is_ignored (description : string) (style : option string) (p : string) :
  Forall (fun c => is_space c = true) (list_ascii_of_string p) ->
  composePrompt description style (Some p) = composePrompt description style None.
Proof.
  intros Hblank. unfold composePrompt.
  assert (Htrim : js_trim p = "").
  { unfold js_trim. rewrite (trimStart_blank _ Hblank). reflexivity. }
  rewrite Htrim. cbn [String.eqb negb]. now rewrite andb_false_r.
Qed.

Lemma includes_intro (a sub b : string) : includes (a +:+ sub +:+ b) sub = true.
Proof.
  induction a as [|c a IH].
  - change ("" +:+ sub +:+ b) with (sub +:+ b).
    assert (Hp : String.prefix sub (sub +:+ b) = true) by (apply prefix_iff; now exists b).
    destruct (sub +:+ b); cbn [includes]; now rewrite Hp.
  - rewrite append_cons. cbn [includes]. rewrite IH. apply orb_true_r.
Qed.

(** The composed prompt opens with the fixed instruction, holds the
    description of the vision model in full, whatever its length, and,
    when the user gave a prompt that is not blank, closes with that
    prompt and a full stop. *)
Theorem composePrompt_carries_inputs
    (description : string) (style prompt : option string) :
  startsWith (composePrompt description style prompt)
    "I want you to create a Studio Ghibli style artwork by Hayao Miyazaki based on this image description. "
  = true
  /\ includes (composePrompt description style prompt) description = true
  /\ (forall text, prompt = Some text -> js_trim text <> "" ->
        endsWith (composePrompt description style prompt) (text +:+ ". ") = true).
Proof.
  unfold composePrompt, startsWith.
  set (guide := js_toString _).
  change ("" +:+ ?x) with x.
  repeat split.
  - apply prefix_iff.
    destruct (truthy (JStr description)); destruct prompt as [p|];
      try destruct (truthy (JStr p) && negb (String.eqb (js_trim p) ""));
      rewrite ?append_assoc; eexists; reflexivity.
  - destruct (truthy (JStr description)) eqn:Hd.
    + destruct prompt as [p|];
        try destruct (truthy (JStr p) && negb (String.eqb (js_trim p) ""));
        rewrite ?append_assoc;
        match goal with
        | |- includes (?pre +:+ ?shows +:+ description +:+ ?rest) _ = true =>
            rewrite <- (append_assoc pre shows (description +:+ rest));
            apply includes_intro
        end.
    + cbn [truthy] in Hd. destruct (String.eqb_spec description "") as [-> | _];
        [| discriminate Hd].
      match goal with |- includes ?s "" = true => destruct s; reflexivity end.
  - intros text -> Htrim.
    assert (Htext : truthy (JStr text) = true).
    { cbn [truthy]. destruct (String.eqb_spec text "") as [-> | _]; [| reflexivity].
      now contradiction Htrim. }
    rewrite Htext. apply String.eqb_neq in Htrim. rewrite Htrim. cbn [negb andb].
    unfold userPrompt_of, js_or. cbn [of_field]. rewrite Htext. cbn [js_toString].
    apply endsWith_iff. eexists. reflexivity.
Qed.

End Server.

(* ===================================================================== *)
(** * The statements at work on the test doubles                         *)
(* ===================================================================== *)

(** The printer and the store of the test doubles. *)
#[local] Instance double_printer : NumberPrinter := Double.printer.
#[local] Instance double_store : Firestore := Double.firestore.

Local Abbreviation upload_image_seeing text :=
  (upload_image Double.StringToNumber Double.autoId false Double.uploadDir
     Double.extname Double.sharp_pass Double.sharp_pass Double.sharp_metadata
     Double.base64 (Double.vision text) Double.image_model).

Local Abbreviation verify_payment_here :=
  (verify_payment Double.StringToNumber Double.autoId Double.key_secret Double.hmac).

Local Abbreviation request_of_u1 :=
  (Double.upload (Some Double.photo) (Some "u1") None).

Local Abbreviation signed := (Double.hmac Double.key_secret "order_1|pay_1").

Lemma photo_of_u1_accepted : accepted request_of_u1 Double.photo "u1".
Proof.
  unfold accepted. repeat split; try reflexivity; try discriminate.
Qed.

(** ** The numbers *)

(** Beyond 2^53 a sum is rounded: one more than 2^53 is 2^53, and three
    more is four more.  The kernel's binary64 values agree. *)
Example sums_beyond_2_53_are_rounded :
  js_add Double.StringToNumber (JNum (2 ^ 53)) (JNum 1) = JNum (2 ^ 53)
  /\ js_add Double.StringToNumber (JNum (2 ^ 53)) (JNum 3) = JNum (2 ^ 53 + 4)
  /\ (Z2float (2 ^ 53) + Z2float 1 =? Z2float (2 ^ 53))%float = true
  /\ float_integer (Z2float 9007199254740991) = Some 9007199254740991.
Proof. repeat split; vm_compute; reflexivity. Qed.

(** A balance of 2^53 that is adjusted by 1 stays where it is. *)
Example adjustment_beyond_2_53_is_lost :
  fst (updateUserCredits Double.StringToNumber "u1" (JNum 1) (Double.world_of (JNum (2 ^ 53))))
  = Val (JNum (2 ^ 53)).
Proof. vm_compute. reflexivity. Qed.

(** The operators at work: a balance stored as text is not decreased
    but extended, text that reads as a number is compared as that
    number, text that names no number is not below 1, and [undefined]
    times 100 is NaN. *)
Example text_balance_is_concatenated :
  js_add Double.StringToNumber (JStr "5") (JNum (-1)) = JStr "5-1"
  /\ js_add Double.StringToNumber (JNum 0) (JStr "10") = JStr "010"
  /\ js_lt Double.StringToNumber (JStr "0") (JNum 1) = true
  /\ js_lt Double.StringToNumber (JStr "many") (JNum 1) = false
  /\ js_mul Double.StringToNumber JUndefined (JNum 100) = JNaN.
Proof. repeat split; vm_compute; reflexivity. Qed.

(** ** POST /api/verify-payment *)



(** Credits that arrive as the text "10": the request is answered with
    the success response, and the balance of the new user is the text
    "010". *)
Example text_credits_are_concatenated :
  fst (run (verify_payment_here (Double.payment_crediting (JStr "10") signed "u1"))
           Double.empty_world)
    = Responded {| status := 200;
                   body := [ ("success", JBool true); ("credits", JStr "010") ] |}
  /\ u_credits <$>
       users (snd (run (verify_payment_here (Double.payment_crediting (JStr "10") signed "u1"))
                       Double.empty_world)) !! "u1"
     = Some (JStr "010").
Proof. split; vm_compute; reflexivity. Qed.

(** A request without [razorpay_order_id], signed as such: the new user
    is credited, the purchase record is refused for its [undefined]
    field, and the answer is a 500. *)
Example missing_order_id_is_credited_but_not_recorded :
  status_of_outcome
    (fst (run (verify_payment_here
                 {| razorpay_order_id := JUndefined; razorpay_payment_id := JStr "pay_1";
                    razorpay_signature := JStr (Double.hmac Double.key_secret "undefined|pay_1");
                    vb_credits := JNum 10; vb_userId := JStr "u1"; vb_amount := JNum 100 |})
              Double.empty_world))
  = Some 500
  /\ u_credits <$>
       users (snd (run (verify_payment_here
                          {| razorpay_order_id := JUndefined; razorpay_payment_id := JStr "pay_1";
                             razorpay_signature :=
                               JStr (Double.hmac Double.key_secret "undefined|pay_1");
                             vb_credits := JNum 10; vb_userId := JStr "u1";
                             vb_amount := JNum 100 |})
                       Double.empty_world)) !! "u1"
     = Some (JNum 10)
  /\ transactions
       (snd (run (verify_payment_here
                    {| razorpay_order_id := JUndefined; razorpay_payment_id := JStr "pay_1";
                       razorpay_signature :=
                         JStr (Double.hmac Double.key_secret "undefined|pay_1");
                       vb_credits := JNum 10; vb_userId := JStr "u1";
                       vb_amount := JNum 100 |})
                 Double.empty_world))
     = [].
Proof. repeat split; vm_compute; reflexivity. Qed.

(** A [userId] that is the number 7: the reference to the user document
    cannot be built, and the answer is the 500 of the [catch] block. *)
Example numeric_userId_is_refused :
  run (verify_payment_here
         {| razorpay_order_id := JStr "order_1"; razorpay_payment_id := JStr "pay_1";
            razorpay_signature := JStr signed; vb_credits := JNum 10;
            vb_userId := JNum 7; vb_amount := JNum 100 |})
      Double.empty_world
  = (Responded {| status := 500;
                  body := [ ("error", JStr "path.indexOf is not a function") ] |},
     Double.empty_world).
Proof. vm_compute. reflexivity. Qed.


(** ** POST /api/create-order *)

(** The spec's scenario for create-order: a price of 100 rupees is an
    amount of 10000 paise. *)
Example create_order_scenario :
  trace (snd (run (create_order Double.StringToNumber Double.key_id Double.razorpay
                     {| co_price := JNum 100; co_userId := JStr "u1"; co_credits := JNum 10 |})
                  Double.empty_world))
  = [ RazorpayOrdersCreate
        {| amount := JNum 10000; currency := "INR";
           receipt := "receipt_order_1700000000000";
           notes_userId := JStr "u1"; notes_credits := JNum 10 |} ].
Proof. reflexivity. Qed.

(** The counterexample to C5 as stated: a price of 19.99 rupees.  The
    number is a fraction, and stays one; the amount that reaches the
    payment provider is 1998.9999999999998, which is below the 1999
    paise that 19.99 rupees are. *)
Lemma fractional_price_is_not_scaled_exactly :
  number_of_float 19.99 = JFloat 19.99
  /\ trace (snd (run (create_order Double.StringToNumber Double.key_id Double.razorpay
                        {| co_price := JFloat 19.99; co_userId := JStr "u1";
                           co_credits := JNum 10 |})
                     Double.empty_world))
     = [ RazorpayOrdersCreate
           {| amount := JFloat 1998.9999999999998; currency := "INR";
              receipt := "receipt_order_1700000000000";
              notes_userId := JStr "u1"; notes_credits := JNum 10 |} ]
  /\ (1998.9999999999998 <? 1999)%float = true
  /\ number_of_float 1999 = JNum 1999.
Proof. repeat split; vm_compute; reflexivity. Qed.

(** A whole price beyond the exact range is rounded as well. *)
Example huge_price_is_rounded :
  js_mul Double.StringToNumber (JNum 9007199254740991) (JNum 100)
  = JNum 900719925474099072.
Proof. vm_compute. reflexivity. Qed.

(** A price of 499 rupees, and the text "499": 49900 paise both. *)
Lemma create_order_amount_in_paise_witness :
  js_mul Double.StringToNumber (JNum 499) (JNum 100) = JNum 49900
  /\ js_mul Double.StringToNumber (JStr "499") (JNum 100) = JNum 49900.
Proof.
  split.
  - apply (proj2 (create_order_amount_in_paise Double.StringToNumber Double.key_id
                    Double.razorpay (JNum 499) (JStr "u1") (JNum 10) Double.empty_world)
             499 eq_refl).
    vm_compute. discriminate.
  - vm_compute. reflexivity.
Defined.

(** A create-order request with an empty body still reaches the payment
    provider, with the amount NaN, and is answered with a 200 by a
    provider that accepts it. *)
Example create_order_empty_body :
  run (create_order Double.StringToNumber Double.key_id Double.razorpay
         {| co_price := JUndefined; co_userId := JUndefined; co_credits := JUndefined |})
      Double.empty_world
  = (Responded {| status := 200;
                  body := [ ("id", JStr "order_1"); ("amount", JNaN);
                            ("currency", JStr "INR"); ("key", JStr "rzp_test_key") ] |},
     with_trace
       (RazorpayOrdersCreate
          {| amount := JNaN; currency := "INR"; receipt := "receipt_order_1700000000000";
             notes_userId := JUndefined; notes_credits := JUndefined |})
       Double.empty_world).
Proof. reflexivity. Qed.

(** A payment provider that is down: the 500 with its message. *)
Example create_order_provider_down :
  fst (run (create_order Double.StringToNumber Double.key_id Double.razorpay_down
              {| co_price := JNum 100; co_userId := JStr "u1"; co_credits := JNum 10 |})
           Double.empty_world)
  = Responded {| status := 500; body := [ ("error", JStr "gateway timeout") ] |}.
Proof. reflexivity. Qed.

(** ** POST /api/upload-image *)

(** An upload that names no user, and an upload of a file called
    [notes.txt], are both refused with a 400 and leave no trace. *)
Lemma upload_intake_rejects_witness :
  (exists r,
     run (upload_image_seeing "A cat." (Double.upload (Some Double.photo) None None))
         Double.empty_world
       = (Responded r, Double.empty_world) /\ status r = 400)
  /\
  (exists r,
     run (upload_image_seeing "A cat."
            (Double.upload
               (Some {| originalname := "notes.txt"; mimetype := "text/plain";
                        file_buffer := [x68; x69] |})
               (Some "u1") None))
         (Double.world_of (JNum 3))
       = (Responded r, Double.world_of (JNum 3)) /\ status r = 400).
Proof.
  split.
  - apply upload_intake_rejects. left. reflexivity.
  - apply upload_intake_rejects. right. right. right.
    eexists. split; [reflexivity |]. right. right. repeat split; reflexivity.
Defined.



Local Abbreviation refusal_text :=
  "I'm unable to analyze the image in detail as requested, but I can describe it in general terms.".

(** A refusal of the vision model for a user with 3 credits: the 400, the
    four calls, and the three credits still there. *)
Lemma vision_refusal_aborts_witness :
  startsWith refusal_text refusal_prefix = true
  /\ fst (run (upload_image_seeing refusal_text request_of_u1) (Double.world_of (JNum 3)))
     = Responded
         {| status := 400;
            body := [ ("error", JStr "Our AI system could not properly analyze your image. Please try a different image with clearer content.");
                      ("details", JStr "Vision model unable to process image details") ] |}
  /\ trace (snd (run (upload_image_seeing refusal_text request_of_u1) (Double.world_of (JNum 3))))
     = [ FirestoreGet "users" "u1";
         DiskWrite "/srv/uploads/1700000000000-42-original.png" (file_buffer Double.photo);
         OpenAIResponsesCreate "data:image/png;base64,iVBORw0KGgo=";
         CleanupScheduled "/srv/uploads/1700000000000-42-original.png" ]
  /\ users (snd (run (upload_image_seeing refusal_text request_of_u1) (Double.world_of (JNum 3))))
     = users (Double.world_of (JNum 3)).
Proof.
  split; [reflexivity |].
  rewrite (vision_refusal_aborts Double.StringToNumber Double.autoId false
             Double.uploadDir Double.extname Double.sharp_pass Double.sharp_pass
             Double.sharp_metadata Double.base64 (Double.vision refusal_text) Double.image_model
             request_of_u1 Double.photo "u1" (Double.new_user (JNum 3)) refusal_text
             (Double.world_of (JNum 3)) photo_of_u1_accepted eq_refl eq_refl eq_refl eq_refl).
  repeat split; reflexivity.
Defined.

(** A description of 1300 characters: the prompt of more than 950
    characters reaches the image model whole. *)
Lemma overlong_prompt_sent_whole_witness :
  MAX_PROMPT_LENGTH <
    Z.of_nat (String.length (composePrompt Double.long_description None None))
  /\ prompts_generated
       (trace (snd (run (upload_image_seeing Double.long_description request_of_u1)
                        (Double.world_of (JNum 3)))))
     = [ composePrompt Double.long_description None None ].
Proof.
  split; [reflexivity |].
  destruct (overlong_prompt_sent_whole Double.StringToNumber Double.autoId false
              Double.uploadDir Double.extname Double.sharp_pass Double.sharp_pass
              Double.sharp_metadata Double.base64 (Double.vision Double.long_description)
              Double.image_model
              request_of_u1 Double.photo "u1" (Double.new_user (JNum 3)) Double.long_description
              (Double.world_of (JNum 3)) photo_of_u1_accepted eq_refl eq_refl eq_refl eq_refl)
    as (later & Htrace & Hlater).
  rewrite Htrace. change (trace (Double.world_of (JNum 3))) with (@nil event).
  replace (MAX_PROMPT_LENGTH <? _) with true by (vm_compute; reflexivity).
  cbn [app prompts_generated]. rewrite Hlater. reflexivity.
Defined.

(** The store after [createOrUpdateUser] was given the text "5" as the
    credits of [u1], which is what [POST /api/user/create] does with a
    body that says so. *)
Local Abbreviation world_with_text_balance :=
  (snd (createOrUpdateUser "u1"
          {| f_credits := Some (JStr "5"); f_createdAt := None; f_other := ∅ |}
          Double.empty_world)).

(** The counterexample to C2 as stated: a balance on record that is the
    text "5".  The request passes the entitlement check and ends in the
    success response; the balance on record is then the text "5-1", not
    a balance that is 1 less. *)
Lemma text_balance_is_not_decreased :
  u_credits <$> users world_with_text_balance !! "u1" = Some (JStr "5")
  /\ status_of_outcome
       (fst (run (upload_image_seeing "A cat on a wall." request_of_u1)
                 world_with_text_balance))
     = Some 200
  /\ u_credits <$>
       users (snd (run (upload_image_seeing "A cat on a wall." request_of_u1)
                       world_with_text_balance)) !! "u1"
     = Some (JStr "5-1").
Proof. repeat split; vm_compute; reflexivity. Qed.

(** The spec's scenario for a transform: a user with a balance of 1 ends
    with 0, one image record and one transaction linked to it. *)
Lemma successful_transform_settles_witness :
  fst (run (upload_image_seeing "A cat on a wall." request_of_u1) (Double.world_of (JNum 1)))
    = Responded
        {| status := 200;
           body := [ ("success", JBool true);
                     ("imageUrl", JStr "https://images.example/out.png");
                     ("originalImageUrl",
                      JStr "https://api.example/uploads/1700000000000-42-original.png");
                     ("credits", JNum 0);
                     ("originalPrompt", JStr default_prompt);
                     ("enhancedPrompt", JStr (composePrompt "A cat on a wall." None None));
                     ("imageDescription", JStr "A cat on a wall.") ] |}
  /\ u_credits <$>
       users (snd (run (upload_image_seeing "A cat on a wall." request_of_u1)
                       (Double.world_of (JNum 1)))) !! "u1"
     = Some (JNum 0)
  /\ length (images (snd (run (upload_image_seeing "A cat on a wall." request_of_u1)
                              (Double.world_of (JNum 1))))) = 1%nat
  /\ map (fun t => (tx_type (tx_data t), tx_credits (tx_data t), tx_imageId (tx_data t)))
       (transactions (snd (run (upload_image_seeing "A cat on a wall." request_of_u1)
                               (Double.world_of (JNum 1)))))
     = [ ("image-transformation", JNum (-1), Some "doc-0") ].
Proof.
  assert (Hrun : fst (run (upload_image_seeing "A cat on a wall." request_of_u1)
                         (Double.world_of (JNum 1)))
                 = Responded
                     {| status := 200;
                        body := [ ("success", JBool true);
                                  ("imageUrl", JStr "https://images.example/out.png");
                                  ("originalImageUrl",
                                   JStr "https://api.example/uploads/1700000000000-42-original.png");
                                  ("credits", JNum 0);
                                  ("originalPrompt", JStr default_prompt);
                                  ("enhancedPrompt",
                                   JStr (composePrompt "A cat on a wall." None None));
                                  ("imageDescription", JStr "A cat on a wall.") ] |})
    by (vm_compute; reflexivity).
  split; [exact Hrun |].
  destruct (successful_transform_settles Double.StringToNumber Double.autoId false
              Double.uploadDir Double.extname Double.sharp_pass Double.sharp_pass
              Double.sharp_metadata Double.base64 (Double.vision "A cat on a wall.")
              Double.image_model request_of_u1 _ (Double.world_of (JNum 1)) _
              (eq_trans (surjective_pairing _) (f_equal (fun o => (o, _)) Hrun)) eq_refl)
    as (userId & user & file & description & imageUrl
        & Huid & _ & Hu & _ & _ & _ & Hbalance & Himages & Htx).
  injection Huid as <-.
  assert (Huser : user = Double.new_user (JNum 1)).
  { vm_compute in Hu. now injection Hu as <-. }
  split.
  { apply (Hbalance 1 (f_equal u_credits Huser)). vm_compute. discriminate. }
  rewrite Himages, Htx. split; reflexivity.
Defined.

(** A style the guide does not know, and no style at all, compose the
    prompt of the default style. *)
Lemma unknown_style_falls_back_witness :
  composePrompt "A cat." (Some "watercolor") None
    = composePrompt "A cat." (Some "ghibli-nature") None
  /\ composePrompt "A cat." None None
     = composePrompt "A cat." (Some "ghibli-nature") None.
Proof.
  split.
  - apply (unknown_style_falls_back "A cat." (Some "watercolor") None); reflexivity.
  - apply (unknown_style_falls_back "A cat." None None); reflexivity.
Defined.

(** What the prompt of a request with the style [__proto__] is. *)
Example proto_style_prompt :
  composePrompt "A cat." (Some "__proto__") None
  = "I want you to create a Studio Ghibli style artwork by Hayao Miyazaki based on this image description. The image shows: A cat. [object Object]. ".
Proof. reflexivity. Qed.

(** What the prompt of a request with the style [constructor] is. *)
Example constructor_style_prompt :
  composePrompt "A cat." (Some "constructor") None
  = "I want you to create a Studio Ghibli style artwork by Hayao Miyazaki based on this image description. The image shows: A cat. function Object() { [native code] }. ".
Proof. reflexivity. Qed.

(** A vision call that fails leaves the request of a user with 3 credits
    unanswered. *)
Lemma vision_failure_unanswered_witness :
  fst (run (upload_image Double.StringToNumber Double.autoId false Double.uploadDir
              Double.extname Double.sharp_pass Double.sharp_pass Double.sharp_metadata
              Double.base64 Double.vision_down Double.image_model request_of_u1)
           (Double.world_of (JNum 3)))
  = Unhandled {| message := "cleanupTempFiles is not defined"; err_status := None |}.
Proof.
  rewrite (vision_failure_unanswered Double.StringToNumber Double.autoId false
             Double.uploadDir Double.extname Double.sharp_pass Double.sharp_pass
             Double.sharp_metadata Double.base64 Double.vision_down Double.image_model
             request_of_u1 Double.photo "u1" (Double.new_user (JNum 3))
             {| message := "Service Unavailable"; err_status := Some 503 |}
             (Double.world_of (JNum 3)) photo_of_u1_accepted eq_refl eq_refl eq_refl).
  reflexivity.
Defined.

(** A photo that [sharp] cannot decode is described as uploaded. *)
Lemma processImage_falls_back_witness :
  processImage Double.sharp_broken Double.sharp_pass Double.sharp_metadata
    (file_buffer Double.photo)
  = file_buffer Double.photo.
Proof.
  apply processImage_falls_back; [left; reflexivity | vm_compute; discriminate].
Defined.


Lemma photo_of_u1_described :
  described Double.StringToNumber Double.sharp_pass Double.sharp_pass Double.sharp_metadata
    Double.base64 (Double.vision "A cat on a wall.")
    request_of_u1 Double.photo "u1" (Double.new_user (JNum 3)) "A cat on a wall."
    (Double.world_of (JNum 3)).
Proof.
  unfold described. split; [exact photo_of_u1_accepted |]. repeat split; reflexivity.
Qed.

(** The image model rejects the input image: a 400, and the three
    credits of [u1] are still there. *)
Lemma generation_failure_answered_witness :
  status_of_outcome
    (fst (run (upload_image Double.StringToNumber Double.autoId false Double.uploadDir
                 Double.extname Double.sharp_pass Double.sharp_pass Double.sharp_metadata
                 Double.base64 (Double.vision "A cat on a wall.")
                 (Double.image_model_rejecting "Invalid input image - format must be PNG")
                 request_of_u1)
              (Double.world_of (JNum 3))))
  = Some 400
  /\ users (snd (run (upload_image Double.StringToNumber Double.autoId false Double.uploadDir
                        Double.extname Double.sharp_pass Double.sharp_pass
                        Double.sharp_metadata Double.base64 (Double.vision "A cat on a wall.")
                        (Double.image_model_rejecting "Invalid input image - format must be PNG")
                        request_of_u1)
                     (Double.world_of (JNum 3))))
     = users (Double.world_of (JNum 3)).
Proof.
  destruct (generation_failure_answered Double.StringToNumber Double.autoId false
              Double.uploadDir Double.extname Double.sharp_pass Double.sharp_pass
              Double.sharp_metadata Double.base64 (Double.vision "A cat on a wall.")
              (Double.image_model_rejecting "Invalid input image - format must be PNG")
              request_of_u1 Double.photo "u1" (Double.new_user (JNum 3)) "A cat on a wall."
              {| message := "Invalid input image - format must be PNG"; err_status := Some 400 |}
              (Double.world_of (JNum 3)) photo_of_u1_described eq_refl)
    as (Hout & (Husers & _) & _).
  split; [rewrite Hout; reflexivity | exact Husers].
Defined.

(** The image model answers without a URL: a 500, and the three credits
    of [u1] are still there. *)
Lemma missing_url_answered_witness :
  status_of_outcome
    (fst (run (upload_image Double.StringToNumber Double.autoId false Double.uploadDir
                 Double.extname Double.sharp_pass Double.sharp_pass Double.sharp_metadata
                 Double.base64 (Double.vision "A cat on a wall.")
                 Double.image_model_without_url request_of_u1)
              (Double.world_of (JNum 3))))
  = Some 500
  /\ users (snd (run (upload_image Double.StringToNumber Double.autoId false Double.uploadDir
                        Double.extname Double.sharp_pass Double.sharp_pass
                        Double.sharp_metadata Double.base64 (Double.vision "A cat on a wall.")
                        Double.image_model_without_url request_of_u1)
                     (Double.world_of (JNum 3))))
     = users (Double.world_of (JNum 3)).
Proof.
  destruct (missing_url_answered Double.StringToNumber Double.autoId false
              Double.uploadDir Double.extname Double.sharp_pass Double.sharp_pass
              Double.sharp_metadata Double.base64 (Double.vision "A cat on a wall.")
              Double.image_model_without_url
              request_of_u1 Double.photo "u1" (Double.new_user (JNum 3)) "A cat on a wall."
              (Double.world_of (JNum 3)) photo_of_u1_described (or_introl eq_refl))
    as (Hout & Husers & _).
  split; [rewrite Hout; reflexivity | exact Husers].
Defined.

(** The 400 of an image model that rejects the input image has cost
    [u1] nothing. *)
Lemma upload_error_response_changes_nothing_witness :
  users (snd (run (upload_image Double.StringToNumber Double.autoId false Double.uploadDir
                     Double.extname Double.sharp_pass Double.sharp_pass
                     Double.sharp_metadata Double.base64 (Double.vision "A cat on a wall.")
                     (Double.image_model_rejecting "Invalid input image - format must be PNG")
                     request_of_u1)
                  (Double.world_of (JNum 3))))
  = users (Double.world_of (JNum 3)).
Proof.
  refine (proj1 (upload_error_response_changes_nothing Double.StringToNumber Double.autoId
                   false Double.uploadDir Double.extname Double.sharp_pass Double.sharp_pass
                   Double.sharp_metadata Double.base64 (Double.vision "A cat on a wall.")
                   (Double.image_model_rejecting "Invalid input image - format must be PNG")
                   request_of_u1
                   {| status := 400;
                      body := [ ("error", JStr "The image format is not compatible with our AI system. Please try a different image.");
                                ("details", JStr "Invalid input image - format must be PNG") ] |}
                   (Double.world_of (JNum 3)) _ _)).
  - reflexivity.
  - discriminate.
Defined.


(** A prompt of three spaces, and one of a no-break space. *)
Lemma blank_prompt_is_ignored_witness :
  composePrompt "A cat." None (Some "   ") = composePrompt "A cat." None None
  /\ composePrompt "A cat." None (Some (String (ascii_of_nat 160) ""))
     = composePrompt "A cat." None None.
Proof.
  split; apply blank_prompt_is_ignored; repeat constructor.
Defined.

(** A prompt of the user closes the composed prompt. *)
Lemma composePrompt_carries_inputs_witness :
  endsWith (composePrompt "A cat." None (Some "make it night")) "make it night. " = true.
Proof.
  destruct (composePrompt_carries_inputs "A cat." None (Some "make it night"))
    as (_ & _ & Hends).
  apply (Hends "make it night"); [reflexivity | discriminate].
Defined.

(* ===================================================================== *)
(** * The store and the ledger at work on the test doubles               *)
(* ===================================================================== *)

(** The scenario of the repository's Firebase test script: a user created
    with 5 credits holds 15 after an adjustment by 10. *)
Example firebase_test_scenario :
  fst (bind (createOrUpdateUser "test-user"
               {| f_credits := Some (JNum 5); f_createdAt := None;
                  f_other := {[ "name" := JStr "Test User";
                                "email" := JStr "test@example.com" ]} |})
            (fun _ => updateUserCredits Double.StringToNumber "test-user" (JNum 10))
            Double.empty_world)
  = Val (JNum 15).
Proof. vm_compute. reflexivity. Qed.


(** An adjustment for a user nobody has heard of. *)
Lemma updateUserCredits_unknown_user_witness :
  updateUserCredits Double.StringToNumber "ghost" (JNum 5) Double.ledger_world
  = (Thrown {| message := "User with ID ghost not found"; err_status := None |},
     with_trace (FirestoreGet "users" "ghost") Double.ledger_world).
Proof.
  apply (updateUserCredits_unknown_user Double.StringToNumber "ghost" (JNum 5)
           Double.ledger_world).
  reflexivity.
Defined.

(** Ten credits bought and one spent leave [u1], who had 15, with 24. *)
Lemma updateUserCredits_adds_up_witness :
  fst (updateUserCredits Double.StringToNumber "u1" (JNum (-1))
         (snd (updateUserCredits Double.StringToNumber "u1" (JNum 10) Double.ledger_world)))
  = Val (JNum 24).
Proof.
  apply (updateUserCredits_adds_up Double.StringToNumber "u1" (Double.new_user (JNum 15))
           15 10 (-1) Double.ledger_world);
    [reflexivity | reflexivity | vm_compute; discriminate | vm_compute; discriminate].
Defined.

(** The adjustment of [u1] leaves [u2] with the 7 credits on record. *)
Lemma updateUserCredits_frame_witness :
  u_credits <$>
    users (snd (updateUserCredits Double.StringToNumber "u1" (JNum 10) Double.ledger_world))
      !! "u2"
  = Some (JNum 7).
Proof.
  destruct (updateUserCredits_frame Double.StringToNumber "u1" (Double.new_user (JNum 15))
              (JNum 10) Double.ledger_world eq_refl) as (_ & Hothers & _).
  rewrite (Hothers "u2"); [reflexivity | discriminate].
Defined.

(** The listing of [u1] in the ledger of three purchases: the two of
    [u1], the later one first. *)
Example listing_of_u1 :
  fst (getUserTransactions "u1" Double.ledger_world)
  = Val [ Double.purchase_of "u1" 10 300 "t-c"; Double.purchase_of "u1" 5 200 "t-b" ].
Proof. reflexivity. Qed.

(** A purchase of [u2] that is saved in the ledger of three purchases is
    the first of the two that [u2] is then listed with. *)
Lemma saved_transaction_is_listed_witness :
  exists saved,
    fst (saveTransaction Double.autoId
           (tx_data (Double.purchase_of "u2" 3 0 "")) Double.ledger_world)
    = Val saved
    /\ fst (getUserTransactions "u2"
              (snd (saveTransaction Double.autoId
                      (tx_data (Double.purchase_of "u2" 3 0 "")) Double.ledger_world)))
       = Val [ saved; Double.purchase_of "u2" 7 100 "t-a" ].
Proof.
  destruct (saved_transaction_is_listed (store := double_store) Double.autoId
              (tx_data (Double.purchase_of "u2" 3 0 "")) Double.ledger_world
              eq_refl eq_refl)
    as (saved & Hsaved & _).
  exists saved. split; [exact Hsaved |].
  vm_compute in Hsaved. injection Hsaved as <-. vm_compute. reflexivity.
Defined.

(** An image of [u1] that is saved in a store without images is the one
    image [u1] is then listed with. *)
Lemma saved_image_is_listed_witness :
  exists saved,
    fst (saveGeneratedImage Double.autoId
           {| img_userId := "u1"; img_prompt := default_prompt;
              img_enhancedPrompt := composePrompt "A cat." None None;
              img_imageDescription := "A cat.";
              img_originalImageUrl := "https://api.example/uploads/1-2-original.png";
              img_style := "ghibli-nature"; img_detailLevel := JNum 50;
              img_imageUrl := "https://images.example/out.png" |}
           Double.ledger_world)
    = Val saved
    /\ fst (getUserImages "u1"
              (snd (saveGeneratedImage Double.autoId
                      {| img_userId := "u1"; img_prompt := default_prompt;
                         img_enhancedPrompt := composePrompt "A cat." None None;
                         img_imageDescription := "A cat.";
                         img_originalImageUrl := "https://api.example/uploads/1-2-original.png";
                         img_style := "ghibli-nature"; img_detailLevel := JNum 50;
                         img_imageUrl := "https://images.example/out.png" |}
                      Double.ledger_world)))
       = Val [ saved ].
Proof.
  destruct (saved_image_is_listed (store := double_store) Double.autoId
              {| img_userId := "u1"; img_prompt := default_prompt;
                 img_enhancedPrompt := composePrompt "A cat." None None;
                 img_imageDescription := "A cat.";
                 img_originalImageUrl := "https://api.example/uploads/1-2-original.png";
                 img_style := "ghibli-nature"; img_detailLevel := JNum 50;
                 img_imageUrl := "https://images.example/out.png" |}
              Double.ledger_world eq_refl eq_refl)
    as (saved & Hsaved & _).
  exists saved. split; [exact Hsaved |].
  vm_compute in Hsaved. injection Hsaved as <-. vm_compute. reflexivity.
Defined.

Lemma ledger_world_consistent : ledger_consistent Double.ledger_world.
Proof.
  split.
  - repeat constructor; discriminate.
  - intros userId. unfold balance_on_record, Double.ledger_world.
    cbn [users transactions ledger_sum fold_right Double.purchase_of tx_data tx_userId
         tx_credits whole_delta default from_option id].
    destruct (String.eqb_spec "u1" userId) as [<- | H1].
    + split; [reflexivity | vm_compute; discriminate].
    + destruct (String.eqb_spec "u2" userId) as [<- | H2].
      * split; [reflexivity | vm_compute; discriminate].
      * rewrite lookup_insert_ne, lookup_singleton_ne by congruence.
        split; [reflexivity | vm_compute; discriminate].
Qed.

(** A purchase of 10 credits by [u1] on the consistent ledger: 25 on
    record, 25 in the ledger. *)
Lemma verify_payment_keeps_ledger_witness :
  balance_on_record
    (snd (run (verify_payment_here (Double.payment signed (Some "u1"))) Double.ledger_world))
    "u1"
  = Some 25
  /\ ledger_sum "u1"
       (transactions
          (snd (run (verify_payment_here (Double.payment signed (Some "u1")))
                    Double.ledger_world)))
     = 25.
Proof.
  assert (Hbound : forall userId,
             vb_userId (Double.payment signed (Some "u1")) = JStr userId ->
             Z.abs (ledger_sum userId (transactions Double.ledger_world) + 10) <= 2 ^ 53).
  { intros userId [= <-]. vm_compute. discriminate. }
  pose proof (proj2 (verify_payment_keeps_ledger Double.StringToNumber Double.autoId
                       Double.key_secret Double.hmac
                       (Double.payment signed (Some "u1")) 10
                       {| status := 200;
                          body := [ ("success", JBool true); ("credits", JNum 25) ] |}
                       Double.ledger_world ledger_world_consistent eq_refl Hbound
                       eq_refl ltac:(discriminate)) "u1") as [H _].
  split; [rewrite H; reflexivity | reflexivity].
Defined.


(** A successful upload by [u1] on the consistent ledger: 14 on record,
    14 in the ledger. *)
Lemma upload_image_keeps_ledger_witness :
  balance_on_record
    (snd (run (upload_image_seeing "A cat on a wall." request_of_u1) Double.ledger_world))
    "u1"
  = Some 14
  /\ ledger_sum "u1"
       (transactions
          (snd (run (upload_image_seeing "A cat on a wall." request_of_u1)
                    Double.ledger_world)))
     = 14.
Proof.
  pose proof (proj2 (upload_image_keeps_ledger Double.StringToNumber Double.autoId false
                       Double.uploadDir Double.extname Double.sharp_pass Double.sharp_pass
                       Double.sharp_metadata Double.base64 (Double.vision "A cat on a wall.")
                       Double.image_model request_of_u1 _ Double.ledger_world
                       ledger_world_consistent eq_refl) "u1") as [H _].
  split; [rewrite H; reflexivity | reflexivity].
Defined.
